(** * Vendor Master Dashboard: a shallow embedding of
      [supply_vendor_dashboard.py] and the properties of its field
      extractor, filter engine, basic-mode lookup and loader.

    Modelling boundaries, stated once:
    - a text is a Rocq [string] read as a sequence of code points: the
      character of number n is the code point U+00n, so the texts of the
      model are those over U+0000 to U+00FF (Latin-1), with Python's
      case mapping and white space on that range; code points above
      U+00FF are outside the type;
    - a cell is a Python [str], [int], [bool] or the missing value NaN;
      finite floats are left out (their [str()] is the shortest-repr
      algorithm), and with them the upcast of an all-numeric row to one
      float dtype;
    - pandas is the 1.x / 2.x line: textual columns read from a file have
      dtype [object], hold NaN for a missing cell, and [astype(str)] turns
      that NaN into the text [nan];
    - a frame is positional (labels, then rows of cells) and its labels
      are texts, pairwise distinct: the record carries the proof. What
      the parsers return is a sheet whose headers may be any cell and may
      repeat; a sheet whose headers are all integers makes the
      loader raise; a sheet that mixes texts with other headers, or with
      two headers that strip to the same text, has no frame in the model
      and loading it has the outcome [Beyond];
    - of Python's [re] syntax the literal characters and the dot are
      modelled; a pattern using another special character gets the outcome
      [Beyond] (or [Raise ReError] where it starts with a repeat
      operator). *)

From Stdlib Require Import ZArith String Ascii List Bool Lia DecimalString.
From Stdlib Require Import Sorted.
From stdpp Require Import base option list gmap strings.

Local Open Scope string_scope.
Local Open Scope Z_scope.

(** ** Column names (lines 7-24) *)

Definition VENDOR_CODE_COL : string := "Vendor Code".
Definition VENDOR_NAME_COL : string := "Vendor Name".
Definition NAME_COL : string := "Name".
Definition EMAIL_COL : string := "Email".
Definition PHONE_COL : string := "Phone Number".
Definition CATEGORY_COL : string := "Category".
Definition CUISINE_1_COL : string := "Cuisine type 1".
Definition CUISINE_2_COL : string := "Cuisine Type 2".
Definition SERVICE_MODEL_COL : string := "Service Model".
Definition SERVING_CAP_COL : string := "Serving Capacity".
Definition STATE_COL : string := "State".
Definition CITY_COL : string := "City".
Definition AREA_COL : string := "Area".
Definition OTHER_CITY_COL : string := "Other City 1".
Definition AREA_1_COL : string := "Area 1".
Definition CERT_1_COL : string := "Certification 1".
Definition CERT_2_COL : string := "Certification 2".
Definition CERT_3_COL : string := "Certification 3".

(** ** Outcomes: a value, a Python exception, or a regular expression
       outside the modelled fragment *)

Inductive Exn :=
| KeyError
| TypeError
| ReError
| ImportError
| StopException
| AttributeError.

Inductive Outcome (A : Type) :=
| Ok (a : A)
| Raise (e : Exn)
| Beyond.

Arguments Ok {A} a.
Arguments Raise {A} e.
Arguments Beyond {A}.

#[global] Instance Outcome_ret : MRet Outcome := fun A a => Ok a.
#[global] Instance Outcome_bind : MBind Outcome := fun A B f m =>
  match m with
  | Ok a => f a
  | Raise e => Raise e
  | Beyond => Beyond
  end.

(** ** Cells *)

Inductive Value :=
| VStr (s : string)
| VInt (z : Z)
| VBool (b : bool)
| VNaN.

#[global] Instance Value_eq_dec : EqDecision Value.
Proof. solve_decision. Defined.

(** [str(x)] *)
Definition str_of_Z (z : Z) : string := NilZero.string_of_int (Z.to_int z).

Definition py_str (v : Value) : string :=
  match v with
  | VStr s => s
  | VInt z => str_of_Z z
  | VBool true => "True"
  | VBool false => "False"
  | VNaN => "nan"
  end.

(** [pd.notna(x)] on a scalar *)
Definition notna (v : Value) : bool :=
  match v with
  | VNaN => false
  | _ => true
  end.

(** [x == y]: text against text, numbers (a [bool] is the integer 0 or
    1) against numbers, NaN equal to nothing. *)
Definition as_int (v : Value) : option Z :=
  match v with
  | VInt z => Some z
  | VBool b => Some (if b then 1 else 0)
  | _ => None
  end.

Definition py_eq (a b : Value) : bool :=
  match a, b with
  | VStr s, VStr t => String.eqb s t
  | _, _ =>
      match as_int a, as_int b with
      | Some x, Some y => Z.eqb x y
      | _, _ => false
      end
  end.

(** [x in xs] *)
Definition py_in (x : Value) (xs : list Value) : bool :=
  existsb (py_eq x) xs.

(** [sep.join(parts)] on texts *)
Fixpoint str_join (sep : string) (parts : list string) : string :=
  match parts with
  | [] => ""
  | [p] => p
  | p :: rest => String.append p (String.append sep (str_join sep rest))
  end.

(** [sep.join(items)] on cells: [TypeError] at the first item that is
    not a [str]. *)
Fixpoint all_str (items : list Value) : Outcome (list string) :=
  match items with
  | [] => Ok []
  | VStr s :: rest => l ← all_str rest; Ok (s :: l)
  | _ :: _ => Raise TypeError
  end.

Definition py_join (sep : string) (items : list Value) : Outcome string :=
  l ← all_str items; Ok (str_join sep l).

(** ** Helpers (lines 68-110) *)

Definition dash : Value := VStr "-".

(** [safe_get(row, col, default)]; the source's default for [default] is
    [dash]. *)
Definition safe_get (row : gmap string Value) (col : string)
    (default : Value) : Value :=
  match row !! col with
  | Some v => if notna v then v else default
  | None => default
  end.

Definition location_columns : list string :=
  [AREA_COL; AREA_1_COL; CITY_COL; OTHER_CITY_COL; STATE_COL].

(** The [for col in [...]] loop of lines 85-87, [location_parts] being
    the list it appends to. *)
Fixpoint location_loop (row : gmap string Value) (cols : list string)
    (location_parts : list string) : list string :=
  match cols with
  | [] => location_parts
  | col :: rest =>
      location_loop row rest
        (match row !! col with
         | Some v =>
             if notna v then (location_parts ++ [py_str v])%list
             else location_parts
         | None => location_parts
         end)
  end.

(** Lines 84-88 *)
Definition compose_location (row : gmap string Value) : string :=
  let location_parts := location_loop row location_columns [] in
  match location_parts with
  | [] => "-"
  | _ => str_join ", " location_parts
  end.

(** Lines 91-94 *)
Definition cuisine_parts (row : gmap string Value) : list Value :=
  let cuisine1 := safe_get row CUISINE_1_COL (VStr "") in
  let cuisine2 := safe_get row CUISINE_2_COL (VStr "") in
  List.filter (fun c => negb (py_in c [VStr ""; VStr "-"]))
    [cuisine1; cuisine2].

Definition compose_cuisine (row : gmap string Value) : Outcome string :=
  match cuisine_parts row with
  | [] => Ok "-"
  | parts => py_join " / " parts
  end.

Definition extract_vendor_info (row : gmap string Value)
    : Outcome (gmap string Value) :=
  let vendor_code := safe_get row VENDOR_CODE_COL dash in
  let vendor_name := safe_get row VENDOR_NAME_COL dash in
  let owner_name := safe_get row NAME_COL dash in
  let phone := safe_get row PHONE_COL dash in
  let email := safe_get row EMAIL_COL dash in
  let location := compose_location row in
  let category := safe_get row CATEGORY_COL dash in
  cuisine_text ← compose_cuisine row;
  let service_model := safe_get row SERVICE_MODEL_COL dash in
  let serving_capacity := safe_get row SERVING_CAP_COL dash in
  Ok (<["serving_capacity" := serving_capacity]>
      (<["service_model" := service_model]>
      (<["cuisine_text" := VStr cuisine_text]>
      (<["category" := category]>
      (<["location" := VStr location]>
      (<["email" := email]>
      (<["phone" := phone]>
      (<["owner_name" := owner_name]>
      (<["vendor_name" := vendor_name]>
      (<["vendor_code" := vendor_code]> ∅)))))))))).

Definition info_keys : gset string :=
  {[ "vendor_code"; "vendor_name"; "owner_name"; "phone"; "email";
     "location"; "category"; "cuisine_text"; "service_model";
     "serving_capacity" ]}.

(** ** Text: case folding, white space, and the fragment of [re] *)

(** [c.lower()] on the code points up to U+00FF: the letters A to Z,
    and the capital letters of U+00C0 to U+00DE, which leaves the
    multiplication sign U+00D7 where it is. The matcher of [re] under
    [IGNORECASE] compares these lower-case forms. *)
Definition lower_char (c : ascii) : ascii :=
  let n := nat_of_ascii c in
  if (((65 <=? n) && (n <=? 90)) ||
      ((192 <=? n) && (n <=? 222) && negb (n =? 215)))%nat
  then ascii_of_nat (n + 32) else c.

Fixpoint lower (s : string) : string :=
  match s with
  | EmptyString => EmptyString
  | String c rest => String (lower_char c) (lower rest)
  end.

(** [sre_parse.SPECIAL_CHARS] and [sre_parse.REPEAT_CHARS] *)
Definition SPECIAL_CHARS : list ascii :=
  list_ascii_of_string ".\[{()*+?^$|".
Definition REPEAT_CHARS : list ascii :=
  list_ascii_of_string "*+?".

Definition is_special (c : ascii) : bool := existsb (Ascii.eqb c) SPECIAL_CHARS.
Definition is_repeat (c : ascii) : bool := existsb (Ascii.eqb c) REPEAT_CHARS.

Inductive Atom :=
| Literal (c : ascii)
| AnyChar.

(** The parser on the fragment: a dot, or a character that is not
    special; [None] at any other special character. *)
Fixpoint re_parse (pat : string) : option (list Atom) :=
  match pat with
  | EmptyString => Some []
  | String c rest =>
      if Ascii.eqb c "." then cons AnyChar <$> re_parse rest
      else if is_special c then None
      else cons (Literal c) <$> re_parse rest
  end.

(** [re.compile(pat, flags=re.IGNORECASE)]: a repeat operator with
    nothing before it is the error "nothing to repeat". *)
Definition re_compile (pat : string) : Outcome (list Atom) :=
  match pat with
  | String c _ =>
      if is_repeat c then Raise ReError
      else match re_parse pat with
           | Some atoms => Ok atoms
           | None => Beyond
           end
  | EmptyString => Ok []
  end.

(** One atom against one character, ignoring case; the dot takes any
    character but the line feed. *)
Definition atom_matches (a : Atom) (x : ascii) : bool :=
  match a with
  | Literal c => Ascii.eqb (lower_char c) (lower_char x)
  | AnyChar => negb (Ascii.eqb x "010")
  end.

Fixpoint match_here (atoms : list Atom) (s : string) : bool :=
  match atoms, s with
  | [], _ => true
  | a :: rest, String x s' => atom_matches a x && match_here rest s'
  | _ :: _, EmptyString => false
  end.

(** [regex.search(s) is not None] *)
Fixpoint re_search (atoms : list Atom) (s : string) : bool :=
  match_here atoms s ||
  match s with
  | EmptyString => false
  | String _ s' => re_search atoms s'
  end.

(** ** Frames *)

Inductive Dtype :=
| DObject
| DString
| DInt64
| DFloat64
| DBool.

(** No text twice. *)
Fixpoint distinct (names : list string) : bool :=
  match names with
  | [] => true
  | name :: rest => negb (existsb (String.eqb name) rest) && distinct rest
  end.

Record DataFrame := mkData {
  columns : list (string * Dtype);
  rows : list (list Value);
  labels_distinct : distinct (map fst columns) = true
}.

(** A frame written out; the labels are checked by computation. *)
Abbreviation mkFrame cols rs := (mkData cols rs eq_refl).

Definition labels (df : DataFrame) : list string := map fst (columns df).

(** [col in df.columns] *)
Definition has_column (df : DataFrame) (col : string) : bool :=
  existsb (String.eqb col) (labels df).

Fixpoint col_index (names : list string) (col : string) : option nat :=
  match names with
  | [] => None
  | name :: rest =>
      if String.eqb name col then Some 0%nat else S <$> col_index rest col
  end.

(** The cell of a row under a label; a row shorter than the header is
    missing there. *)
Definition cell (df : DataFrame) (cells : list Value) (col : string) : Value :=
  match col_index (labels df) col with
  | Some i => nth i cells VNaN
  | None => VNaN
  end.

(** [df[col]]: the column as a list, [KeyError] without the label. The
    labels being distinct, at most one column carries it. *)
Definition getcol (df : DataFrame) (col : string) : Outcome (list Value) :=
  match col_index (labels df) col with
  | Some i => Ok (map (fun cells => nth i cells VNaN) (rows df))
  | None => Raise KeyError
  end.

(** The labelled row [iterrows()] and [iloc[i]] hand out: a mapping,
    the labels being distinct. *)
Definition row_series (df : DataFrame) (cells : list Value)
    : gmap string Value :=
  list_to_map (zip (labels df) cells).

(** [df[mask]] *)
Fixpoint mask_rows {A : Type} (xs : list A) (mask : list bool) : list A :=
  match xs, mask with
  | x :: xs', b :: mask' =>
      if b then x :: mask_rows xs' mask' else mask_rows xs' mask'
  | _, _ => []
  end.

Definition boolean_index (df : DataFrame) (mask : list bool) : DataFrame :=
  {| columns := columns df;
     rows := mask_rows (rows df) mask;
     labels_distinct := labels_distinct df |}.

(** [series.astype(str)] *)
Definition astype_str (s : list Value) : list string := map py_str s.

(** ** Advanced filters (lines 234-254) *)

Definition is_textual (d : Dtype) : bool :=
  match d with
  | DObject | DString => true
  | _ => false
  end.

(** [df.select_dtypes(include=["object", "string"]).columns] *)
Definition select_dtypes_text (df : DataFrame) : list string :=
  map fst (List.filter (fun c => is_textual (snd c)) (columns df)).

(** [series.str.contains(pat, case=False, na=False)]; [regex] keeps its
    default [True], so [pat] is compiled. *)
Definition str_contains (pat : string) (xs : list string)
    : Outcome (list bool) :=
  p ← re_compile pat; Ok (map (re_search p) xs).

(** The loop of lines 242-247; [mask |= ...] is the element-wise or. *)
Fixpoint search_loop (results_df : DataFrame) (search_query : string)
    (string_cols : list string) (mask : list bool) : Outcome (list bool) :=
  match string_cols with
  | [] => Ok mask
  | col :: rest =>
      s ← getcol results_df col;
      hit ← str_contains search_query (astype_str s);
      search_loop results_df search_query rest (zip_with orb mask hit)
  end.

(** Lines 238-248 *)
Definition global_search (results_df : DataFrame) (search_query : string)
    : Outcome DataFrame :=
  if negb (String.eqb search_query "") then
    let string_cols := select_dtypes_text results_df in
    if (0 <? length string_cols)%nat then
      mask ← search_loop results_df search_query string_cols
               (replicate (length (rows results_df)) false);
      Ok (boolean_index results_df mask)
    else Ok results_df
  else Ok results_df.

(** Lines 251-254 *)
Definition capacity_filter (results_df : DataFrame)
    (serving_capacity_option : string) : Outcome DataFrame :=
  if negb (String.eqb serving_capacity_option "All")
     && has_column results_df SERVING_CAP_COL then
    s ← getcol results_df SERVING_CAP_COL;
    Ok (boolean_index results_df
          (map (fun x => String.eqb x serving_capacity_option) (astype_str s)))
  else Ok results_df.

(** Lines 235-254 *)
Definition advanced_filters (df : DataFrame) (search_query : string)
    (serving_capacity_option : string) : Outcome DataFrame :=
  results_df ← global_search df search_query;
  capacity_filter results_df serving_capacity_option.

(** ** Rendering (lines 113-157, 256-274, 280-307) *)

(** [info[key]] *)
Definition getitem (info : gmap string Value) (key : string) : Outcome Value :=
  match info !! key with
  | Some v => Ok v
  | None => Raise KeyError
  end.

(** The eight values [render_owner_and_vendor_boxes] writes, in order. *)
Definition render_owner_and_vendor_boxes (info : gmap string Value)
    : Outcome (list Value) :=
  owner_name ← getitem info "owner_name";
  phone ← getitem info "phone";
  email ← getitem info "email";
  location ← getitem info "location";
  category ← getitem info "category";
  cuisine_text ← getitem info "cuisine_text";
  service_model ← getitem info "service_model";
  serving_capacity ← getitem info "serving_capacity";
  Ok [owner_name; phone; email; location; category; cuisine_text;
      service_model; serving_capacity].

(** U+00B7, the dot between code and name in a title. *)
Definition middle_dot : string := String (ascii_of_nat 183) EmptyString.

(** [header_text] of lines 264-268. *)
Definition header_text (info : gmap string Value) : Outcome Value :=
  vendor_code ← getitem info "vendor_code";
  if negb (py_in vendor_code [VStr ""; VStr "-"]) then
    vendor_name ← getitem info "vendor_name";
    Ok (VStr (py_str vendor_code +:+ " " +:+ middle_dot +:+ " " +:+
              py_str vendor_name))
  else getitem info "vendor_name".

(** [st.expander(label)]: the label has to be a text, [TypeError]
    otherwise. *)
Definition expander (label : Value) : Outcome string :=
  match label with
  | VStr s => Ok s
  | _ => Raise TypeError
  end.

(** What one run of the script puts on the page. A card is the record of
    a vendor with the values written into its two boxes; an expander is
    a card under its title. The captions and the layout calls are left
    out. *)
Inductive View :=
| SelectVendorPrompt
| NoDataWarning
| VendorOverview (info : gmap string Value) (boxes : list Value)
| NoMatchesInfo
| SearchResults (count : nat)
    (cards : list (string * (gmap string Value * list Value))).

(** Lines 289-307: the record of the row and its boxes. *)
Definition render_card (row : gmap string Value)
    : Outcome (gmap string Value * list Value) :=
  info ← extract_vendor_info row;
  boxes ← render_owner_and_vendor_boxes info;
  Ok (info, boxes).

(** The body of the loop of lines 262-274. *)
Definition render_expander (row : gmap string Value)
    : Outcome (string * (gmap string Value * list Value)) :=
  info ← extract_vendor_info row;
  label ← header_text info;
  title ← expander label;
  boxes ← render_owner_and_vendor_boxes info;
  Ok (title, (info, boxes)).

Fixpoint render_expanders (rs : list (gmap string Value))
    : Outcome (list (string * (gmap string Value * list Value))) :=
  match rs with
  | [] => Ok []
  | row :: rest =>
      card ← render_expander row;
      cards ← render_expanders rest;
      Ok (card :: cards)
  end.

(** Lines 230-274 *)
Definition advanced_mode (df : DataFrame) (search_query : string)
    (serving_capacity_option : string) : Outcome View :=
  results_df ← advanced_filters df search_query serving_capacity_option;
  match rows results_df with
  | [] => Ok NoMatchesInfo
  | rs =>
      cards ← render_expanders (map (row_series results_df) rs);
      Ok (SearchResults (length rs) cards)
  end.

(** Lines 280-307 *)
Definition basic_mode (df : DataFrame) (selected_vendor : Value)
    : Outcome View :=
  if py_eq selected_vendor (VStr "All Vendors") then Ok SelectVendorPrompt
  else
    names ← getcol df VENDOR_NAME_COL;
    let vendor_rows :=
      boolean_index df (map (fun x => py_eq x selected_vendor) names) in
    match rows vendor_rows with
    | [] => Ok NoDataWarning
    | row :: _ =>
        card ← render_card (row_series vendor_rows row);
        Ok (VendorOverview (fst card) (snd card))
    end.

(** ** Sidebar (lines 185-225) *)

(** [series.dropna()] and [series.unique()] (first occurrences kept) *)
Definition dropna (s : list Value) : list Value := List.filter notna s.

Fixpoint unique_from {A : Type} (eqb : A -> A -> bool) (seen s : list A)
    : list A :=
  match s with
  | [] => []
  | x :: rest =>
      if existsb (eqb x) seen then unique_from eqb seen rest
      else x :: unique_from eqb (x :: seen) rest
  end.

Definition unique {A : Type} (eqb : A -> A -> bool) (s : list A) : list A :=
  unique_from eqb [] s.

(** [x < y]: [TypeError] between a text and a number. *)
Definition py_lt (a b : Value) : Outcome bool :=
  match a, b with
  | VStr s, VStr t => Ok (String.ltb s t)
  | VStr _, _ | _, VStr _ => Raise TypeError
  | _, _ =>
      match as_int a, as_int b with
      | Some x, Some y => Ok (x <? y)
      | _, _ => Ok false
      end
  end.

(** [sorted(xs)], stable, as an insertion from the right. *)
Fixpoint insert_sorted {A : Type} (lt : A -> A -> Outcome bool) (x : A)
    (l : list A) : Outcome (list A) :=
  match l with
  | [] => Ok [x]
  | y :: rest =>
      below ← lt y x;
      if (below : bool) then (r ← insert_sorted lt x rest; Ok (y :: r))
      else Ok (x :: y :: rest)
  end.

Fixpoint sorted {A : Type} (lt : A -> A -> Outcome bool) (l : list A)
    : Outcome (list A) :=
  match l with
  | [] => Ok []
  | x :: rest => r ← sorted lt rest; insert_sorted lt x r
  end.

(** [st.sidebar.selectbox(options, index=0)]: the option the user picked,
    the first one failing that. *)
Definition selectbox {A : Type} (first : A) (others : list A) (pick : nat)
    : A :=
  nth pick (first :: others) first.

(** What the user did with the sidebar widgets. *)
Record Controls := mkControls {
  vendor_pick : nat;
  show_advanced : bool;
  typed_query : string;
  capacity_pick : nat
}.

(** Lines 188-307, the script once a frame is loaded. *)
Definition dashboard (df : DataFrame) (ui : Controls) : Outcome View :=
  names ← getcol df VENDOR_NAME_COL;
  vendor_list ← sorted py_lt (unique py_eq (dropna names));
  let selected_vendor :=
    selectbox (VStr "All Vendors") vendor_list (vendor_pick ui) in
  if show_advanced ui then
    let search_query := typed_query ui in
    serving_capacity_option ←
      (if has_column df SERVING_CAP_COL then
         caps ← getcol df SERVING_CAP_COL;
         serving_caps_raw ←
           sorted (fun a b => Ok (String.ltb a b))
             (unique String.eqb (astype_str (dropna caps)));
         Ok (selectbox "All" serving_caps_raw (capacity_pick ui))
       else Ok "All");
    advanced_mode df search_query serving_capacity_option
  else basic_mode df selected_vendor.

(** ** Loader (lines 38-63, 172-183) *)

Record UploadedFile := mkUpload {
  name : string;
  content : list Byte.byte
}.

(** [c.isspace()] on the code points up to U+00FF: U+0009 to U+000D,
    U+001C to U+0020, the next-line control U+0085 and the no-break
    space U+00A0. *)
Definition is_space (c : ascii) : bool :=
  let n := nat_of_ascii c in
  (((9 <=? n) && (n <=? 13)) || ((28 <=? n) && (n <=? 32)) ||
   (n =? 133) || (n =? 160))%nat.

Fixpoint lstrip (s : string) : string :=
  match s with
  | EmptyString => EmptyString
  | String c rest => if is_space c then lstrip rest else s
  end.

Fixpoint rstrip (s : string) : string :=
  match s with
  | EmptyString => EmptyString
  | String c rest =>
      match rstrip rest with
      | EmptyString => if is_space c then EmptyString else String c EmptyString
      | kept => String c kept
      end
  end.

(** [s.strip()] *)
Definition py_strip (s : string) : string := rstrip (lstrip s).

(** [s.endswith(suffix)] *)
Fixpoint endswith (s suffix : string) : bool :=
  String.eqb s suffix ||
  match s with
  | EmptyString => false
  | String _ rest => endswith rest suffix
  end.

(** What a parser returns: the header cells, texts or not, each with
    the dtype of its column, and the rows. *)
Record ParsedSheet := mkSheet {
  header : list (Value * Dtype);
  body : list (list Value)
}.

(** The headers when every one of them is a text. *)
Fixpoint header_texts (h : list (Value * Dtype))
    : option (list (string * Dtype)) :=
  match h with
  | [] => Some []
  | (VStr s, d) :: rest => cons (s, d) <$> header_texts rest
  | _ :: _ => None
  end.

(** Every header is an integer and there is one at least: the index of
    such a sheet has an integer dtype. *)
Definition integer_index (h : list (Value * Dtype)) : bool :=
  match h with
  | [] => false
  | _ :: _ =>
      forallb (fun c => match fst c with VInt _ => true | _ => false end) h
  end.

(** [df.columns = df.columns.str.strip()]. On text headers each one is
    stripped. On an index of integers the [.str] accessor raises
    [AttributeError] (it takes string values only). An index that mixes
    texts with other cells gets NaN labels, and two headers that strip
    to one text make a repeated label: no frame of the model,
    [Beyond]. *)
Definition strip_columns (sheet : ParsedSheet) : Outcome DataFrame :=
  match header_texts (header sheet) with
  | Some cols =>
      let stripped := map (fun c => (py_strip (fst c), snd c)) cols in
      match decide (distinct (map fst stripped) = true) with
      | left H => Ok (mkData stripped (body sheet) H)
      | right _ => Beyond
      end
  | None =>
      if integer_index (header sheet) then Raise AttributeError else Beyond
  end.

Section Loader.

(** [pd.read_csv] and [pd.read_excel(engine="openpyxl")], the parsers of
    the library. *)
Variable read_csv : UploadedFile -> Outcome ParsedSheet.
Variable read_excel : UploadedFile -> Outcome ParsedSheet.

Definition load_vendor_data (uploaded_file : UploadedFile)
    : Outcome DataFrame :=
  let file_name := lower (name uploaded_file) in
  df ← (if endswith file_name ".csv" then read_csv uploaded_file
        else match read_excel uploaded_file with
             | Raise ImportError => Raise StopException
             | parsed => parsed
             end);
  strip_columns df.

(** The whole script: no upload stops it after the prompt. *)
Definition main (uploaded_file : option UploadedFile) (ui : Controls)
    : Outcome View :=
  match uploaded_file with
  | None => Raise StopException
  | Some f => df ← load_vendor_data f; dashboard df ui
  end.

End Loader.

(** ** The claims' vocabulary *)

(** [q], compared without regard to case, is a substring of [s]. *)
Definition contains_ci (q s : string) : Prop :=
  exists pre post : string, lower s = pre +:+ lower q +:+ post.

(** A query with none of the characters [re] reads as syntax. *)
Definition plain_query (q : string) : bool :=
  forallb (fun c => negb (is_special c)) (list_ascii_of_string q).

(** The text a column gives to the location: the string form of a
    present cell. *)
Definition present_text (row : gmap string Value) (col : string)
    : option string :=
  match row !! col with
  | Some v => if notna v then Some (py_str v) else None
  | None => None
  end.

(** A cell that is absent, missing or a text. *)
Definition text_or_missing (row : gmap string Value) (col : string) : Prop :=
  match row !! col with
  | Some (VInt _) | Some (VBool _) => False
  | _ => True
  end.

(** A frame cut down to the rows a criterion keeps, in their order. *)
Definition keep_rows (df : DataFrame) (keep : list Value -> bool)
    : DataFrame :=
  {| columns := columns df;
     rows := List.filter keep (rows df);
     labels_distinct := labels_distinct df |}.

(** The text-search criterion on one row: some textual column whose
    string form the compiled query is found in; every row passes when
    the query is empty or the frame has no textual column. *)
Definition text_criterion (df : DataFrame) (q : string)
    : Outcome (list Value -> bool) :=
  if String.eqb q "" then Ok (fun _ => true)
  else
    match select_dtypes_text df with
    | [] => Ok (fun _ => true)
    | textual =>
        p ← re_compile q;
        Ok (fun cells =>
              existsb (fun col => re_search p (py_str (cell df cells col)))
                textual)
    end.

(** The serving-capacity criterion on one row. *)
Definition capacity_criterion (df : DataFrame) (selector : string)
    (cells : list Value) : bool :=
  if negb (String.eqb selector "All") && has_column df SERVING_CAP_COL
  then String.eqb (py_str (cell df cells SERVING_CAP_COL)) selector
  else true.

(** The vendor-name criterion of basic mode on one row. *)
Definition vendor_criterion (df : DataFrame) (selected : Value)
    (cells : list Value) : bool :=
  py_eq (cell df cells VENDOR_NAME_COL) selected.

(** The text search as a plain substring test: the rows of the result
    are the rows with a textual column whose string form contains [q]. *)
Definition substring_search (df : DataFrame) (q : string) : Prop :=
  exists res,
    global_search df q = Ok res /\
    forall cells,
      In cells (rows res) <->
      In cells (rows df) /\
      exists col d,
        In (col, d) (columns df) /\ is_textual d = true /\
        contains_ci q (py_str (cell df cells col)).

Definition numbers_only : DataFrame :=
  mkFrame [("Vendor Code", DInt64); ("Vendor Name", DInt64)]
    [[VInt 101; VInt 7]].

Definition one_text : DataFrame :=
  mkFrame [("Vendor Name", DObject)] [[VStr "abc"]].

(** A text with no white space at either end. *)
Definition first_char (s : string) : option ascii :=
  match s with
  | EmptyString => None
  | String c _ => Some c
  end.

Fixpoint last_char (s : string) : option ascii :=
  match s with
  | EmptyString => None
  | String c EmptyString => Some c
  | String _ rest => last_char rest
  end.

Definition stripped (s : string) : Prop :=
  (forall c, first_char s = Some c -> is_space c = false) /\
  (forall c, last_char s = Some c -> is_space c = false).

(** The cuisine text on cells that are texts or missing: the two cells
    with the empty text for an absent one, those equal to the empty text
    or the dash dropped, the rest joined. *)
Definition kept_cuisines (row : gmap string Value) : list string :=
  List.filter (fun c => negb (String.eqb c "") && negb (String.eqb c "-"))
    [py_str (safe_get row CUISINE_1_COL (VStr ""));
     py_str (safe_get row CUISINE_2_COL (VStr ""))].

Definition two_palaces : DataFrame :=
  mkFrame [("Vendor Name", DObject); ("City", DObject)]
    [[VStr "Taco Hut"; VStr "Pune"];
     [VStr "Pizza Palace"; VStr "Mumbai"];
     [VStr "Pizza Palace"; VStr "Delhi"]].

Definition code_only : DataFrame :=
  mkFrame [("Vendor Code", DObject)] [[VStr "V-001"]].

Definition padded_header : ParsedSheet :=
  mkSheet [(VStr "  Vendor Code ", DObject)] [[VStr "V-001"]].

(** The cell a lookup sees: there and not missing. *)
Definition present_cell (row : gmap string Value) (col : string)
    : option Value :=
  match row !! col with
  | Some v => if notna v then Some v else None
  | None => None
  end.

(** The fifteen columns [extract_vendor_info] reads. *)
Definition read_columns : list string :=
  [VENDOR_CODE_COL; VENDOR_NAME_COL; NAME_COL; PHONE_COL; EMAIL_COL;
   AREA_COL; AREA_1_COL; CITY_COL; OTHER_CITY_COL; STATE_COL;
   CATEGORY_COL; CUISINE_1_COL; CUISINE_2_COL; SERVICE_MODEL_COL;
   SERVING_CAP_COL].

Definition is_text (v : Value) : bool :=
  match v with
  | VStr _ => true
  | _ => false
  end.

(** A text made of white space only. *)
Definition all_space (s : string) : Prop :=
  Forall (fun c => is_space c = true) (list_ascii_of_string s).

(** An atom with its literal in lower case. *)
Definition lower_atom (a : Atom) : Atom :=
  match a with
  | Literal c => Literal (lower_char c)
  | AnyChar => AnyChar
  end.

Definition no_rows : DataFrame :=
  mkFrame [("Vendor Name", DObject); ("Serving Capacity", DInt64)] [].

Definition mixed_names : DataFrame :=
  mkFrame [("Vendor Name", DObject)] [[VStr "Taco Hut"]; [VInt 42]].

Definition number_cuisine : DataFrame :=
  mkFrame [("Vendor Name", DObject); ("Cuisine type 1", DInt64)]
    [[VStr "Taco Hut"; VInt 3]; [VStr "Pizza Palace"; VInt 4]].

(** The record and the boxes of a row that has a vendor name and a
    city and nothing else. *)
Definition name_city_record (vendor city : string) : gmap string Value :=
  <["serving_capacity" := VStr "-"]>
  (<["service_model" := VStr "-"]>
  (<["cuisine_text" := VStr "-"]>
  (<["category" := VStr "-"]>
  (<["location" := VStr city]>
  (<["email" := VStr "-"]>
  (<["phone" := VStr "-"]>
  (<["owner_name" := VStr "-"]>
  (<["vendor_name" := VStr vendor]>
  (<["vendor_code" := VStr "-"]> ∅))))))))).

Definition name_city_boxes (city : string) : list Value :=
  [VStr "-"; VStr "-"; VStr "-"; VStr city; VStr "-"; VStr "-"; VStr "-";
   VStr "-"].


(** [a] does not come after [b]: [b < a] is false. *)
Definition not_after (a b : Value) : Prop := py_lt b a = Ok false.

(** A query of literal characters and dots, the patterns the model
    compiles. *)
Definition dotted_query (q : string) : bool :=
  forallb (fun c => Ascii.eqb c "." || negb (is_special c))
    (list_ascii_of_string q).


(** A sheet whose Vendor Name header sits between no-break spaces. *)
Definition nbsp_sheet : ParsedSheet :=
  mkSheet
    [(VStr (String (ascii_of_nat 160) "Vendor Name"
            +:+ String (ascii_of_nat 160) EmptyString), DObject)]
    [[VStr "Pizza Palace"]].

(** Two vendors with their serving capacities. *)
Definition two_capacities : DataFrame :=
  mkFrame [("Vendor Name", DObject); ("Serving Capacity", DInt64)]
    [[VStr "Pizza Palace"; VInt 50];
     [VStr "Curry House"; VInt 120]].

(** A spreadsheet headed by two years. *)
Definition year_sheet : ParsedSheet :=
  mkSheet [(VInt 2023, DInt64); (VInt 2024, DInt64)] [[VInt 10; VInt 12]].

(** * Properties *)

(** ** Outcomes *)

Lemma bind_Ok {A B : Type} (a : A) (f : A -> Outcome B) :
  (Ok a ≫= f) = f a.
Proof. reflexivity. Qed.

(** ** The regular-expression fragment on plain queries *)

Lemma is_special_lower c : is_special c = true -> lower_char c = c.
Proof.
  unfold is_special, SPECIAL_CHARS; cbn [list_ascii_of_string existsb].
  rewrite !orb_true_iff.
  intros H.
  repeat (destruct H as [H|H];
          [apply Ascii.eqb_eq in H; subst c; reflexivity|]).
  discriminate.
Qed.

Lemma is_repeat_special c : is_repeat c = true -> is_special c = true.
Proof.
  unfold is_repeat, REPEAT_CHARS; cbn [list_ascii_of_string existsb].
  rewrite !orb_true_iff.
  intros H.
  repeat (destruct H as [H|H];
          [apply Ascii.eqb_eq in H; subst c; reflexivity|]).
  discriminate.
Qed.

Lemma re_parse_plain q :
  plain_query q = true ->
  re_parse q = Some (map Literal (list_ascii_of_string q)).
Proof.
  unfold plain_query.
  induction q as [|c q IH]; cbn [list_ascii_of_string forallb re_parse map].
  - reflexivity.
  - rewrite andb_true_iff, negb_true_iff. intros [Hc Hq].
    destruct (Ascii.eqb c ".") eqn:Hdot.
    + apply Ascii.eqb_eq in Hdot. subst c. discriminate Hc.
    + rewrite Hc, (IH Hq). reflexivity.
Qed.

Lemma re_compile_plain q :
  plain_query q = true ->
  re_compile q = Ok (map Literal (list_ascii_of_string q)).
Proof.
  intros Hq. unfold re_compile.
  destruct q as [|c q]; [reflexivity|].
  rewrite (re_parse_plain _ Hq).
  destruct (is_repeat c) eqn:Hr; [|reflexivity].
  apply is_repeat_special in Hr.
  unfold plain_query in Hq. cbn [list_ascii_of_string forallb] in Hq.
  rewrite Hr in Hq. discriminate.
Qed.

Lemma match_here_prefix q s :
  match_here (map Literal (list_ascii_of_string q)) s = true <->
  exists post, lower s = lower q +:+ post.
Proof.
  revert s.
  induction q as [|c q IH]; intros s;
    cbn [list_ascii_of_string map match_here lower String.append].
  - split; [intros _; exists (lower s); reflexivity | reflexivity].
  - destruct s as [|x s]; cbn [lower].
    + split; [discriminate | intros [post H]; discriminate].
    + cbn [atom_matches]. rewrite andb_true_iff, Ascii.eqb_eq, IH.
      split.
      * intros [Hc [post Hs]]. exists post. rewrite Hc, Hs. reflexivity.
      * intros [post H]. injection H as Hc Hs. split; [congruence|eauto].
Qed.

Lemma re_search_contains q s :
  re_search (map Literal (list_ascii_of_string q)) s = true <->
  contains_ci q s.
Proof.
  unfold contains_ci. split.
  - induction s as [|x s IH]; cbn [re_search]; rewrite orb_true_iff.
    + intros [H|H]; [|discriminate].
      apply match_here_prefix in H. destruct H as [post H].
      exists EmptyString, post. exact H.
    + intros [H|H].
      * apply match_here_prefix in H. destruct H as [post H].
        exists EmptyString, post. exact H.
      * destruct (IH H) as (pre & post & Hs).
        exists (String (lower_char x) pre), post.
        cbn [lower String.append]. rewrite Hs. reflexivity.
  - intros (pre & post & Hs). revert s Hs.
    induction pre as [|a pre IH]; intros s Hs.
    + cbn [String.append] in Hs.
      assert (Hm : match_here (map Literal (list_ascii_of_string q)) s = true)
        by (apply match_here_prefix; eauto).
      destruct s; cbn [re_search]; rewrite Hm; reflexivity.
    + destruct s as [|x s]; [discriminate|].
      cbn [lower String.append] in Hs. injection Hs as _ Hs.
      cbn [re_search]. rewrite (IH _ Hs). apply orb_true_r.
Qed.

(** The characters of a substring occur in the text. *)
Lemma list_ascii_append a b :
  list_ascii_of_string (a +:+ b) =
  (list_ascii_of_string a ++ list_ascii_of_string b)%list.
Proof.
  induction a as [|c a IH]; simpl; [reflexivity | rewrite IH; reflexivity].
Qed.

Lemma list_ascii_lower s :
  list_ascii_of_string (lower s) = map lower_char (list_ascii_of_string s).
Proof.
  induction s as [|c s IH]; simpl; [reflexivity | rewrite IH; reflexivity].
Qed.

Lemma contains_ci_chars q s c :
  contains_ci q s ->
  In c (list_ascii_of_string q) ->
  In (lower_char c) (list_ascii_of_string (lower s)).
Proof.
  intros (pre & post & Hs) Hc. rewrite Hs, !list_ascii_append.
  apply in_or_app. right. apply in_or_app. left.
  rewrite list_ascii_lower. apply in_map. exact Hc.
Qed.

Lemma contains_ci_plain q s :
  contains_ci q s -> plain_query (lower s) = true -> plain_query q = true.
Proof.
  intros Hq Hs. unfold plain_query in *.
  rewrite forallb_forall in *. intros c Hc.
  pose proof (Hs _ (contains_ci_chars _ _ _ Hq Hc)) as Hl.
  destruct (is_special c) eqn:Hsp; [|reflexivity].
  rewrite (is_special_lower _ Hsp), Hsp in Hl. discriminate.
Qed.

(** ** Frames *)

Lemma col_index_has names col :
  col_index names col = None <-> existsb (String.eqb col) names = false.
Proof.
  induction names as [|l names IH]; cbn [col_index existsb].
  - tauto.
  - rewrite (String.eqb_sym col l).
    destruct (String.eqb l col); cbn [orb].
    + split; discriminate.
    + rewrite <- IH. destruct (col_index names col); cbn; split;
        (discriminate || reflexivity).
Qed.

Lemma getcol_cells df col :
  getcol df col =
  if has_column df col
  then Ok (map (fun cells => cell df cells col) (rows df))
  else Raise KeyError.
Proof.
  unfold getcol, has_column, cell.
  destruct (col_index (labels df) col) eqn:Hi.
  - destruct (existsb (String.eqb col) (labels df)) eqn:Hh; [reflexivity|].
    apply col_index_has in Hh. congruence.
  - apply col_index_has in Hi. rewrite Hi. reflexivity.
Qed.

Lemma select_dtypes_text_has df col :
  In col (select_dtypes_text df) -> has_column df col = true.
Proof.
  unfold select_dtypes_text, has_column, labels. intros H.
  apply in_map_iff in H. destruct H as ([l d] & Hl & H). cbn in Hl. subst l.
  apply filter_In in H. destruct H as [H _].
  apply existsb_exists. exists col. split.
  - apply in_map_iff. exists (col, d). split; [reflexivity | exact H].
  - apply String.eqb_refl.
Qed.

Lemma mask_rows_map {A : Type} (f : A -> bool) (xs : list A) :
  mask_rows xs (map f xs) = List.filter f xs.
Proof.
  induction xs as [|x xs IH]; cbn [map mask_rows List.filter];
    [reflexivity | rewrite IH; reflexivity].
Qed.

Lemma zip_with_orb_map {A : Type} (f g : A -> bool) (xs : list A) :
  zip_with orb (map f xs) (map g xs) = map (fun x => f x || g x) xs.
Proof.
  induction xs as [|x xs IH]; cbn [map zip_with];
    [reflexivity | rewrite IH; reflexivity].
Qed.

Lemma replicate_false_map {A : Type} (xs : list A) :
  replicate (length xs) false = map (fun _ => false) xs.
Proof.
  induction xs as [|x xs IH]; cbn [length replicate map];
    [reflexivity | rewrite IH; reflexivity].
Qed.

Lemma filter_true {A : Type} (xs : list A) :
  List.filter (fun _ => true) xs = xs.
Proof.
  induction xs as [|x xs IH]; cbn [List.filter];
    [reflexivity | rewrite IH; reflexivity].
Qed.

Lemma keep_rows_all df : keep_rows df (fun _ => true) = df.
Proof.
  destruct df. unfold keep_rows. cbn. rewrite filter_true. reflexivity.
Qed.

Lemma filter_sublist {A : Type} (f : A -> bool) (xs : list A) :
  sublist (List.filter f xs) xs.
Proof.
  induction xs as [|x xs IH]; cbn [List.filter].
  - constructor.
  - destruct (f x); [apply sublist_skip | apply sublist_cons]; exact IH.
Qed.

Lemma filter_filter {A : Type} (f g : A -> bool) (xs : list A) :
  List.filter g (List.filter f xs) = List.filter (fun x => f x && g x) xs.
Proof.
  induction xs as [|x xs IH]; cbn [List.filter]; [reflexivity|].
  destruct (f x); cbn [List.filter andb]; rewrite IH; reflexivity.
Qed.

(** ** The search loop, column by column, is a test row by row *)

Lemma search_loop_rows df q p cols (f : list Value -> bool) :
  re_compile q = Ok p ->
  (forall col, In col cols -> has_column df col = true) ->
  search_loop df q cols (map f (rows df)) =
  Ok (map (fun cells =>
             f cells ||
             existsb (fun col => re_search p (py_str (cell df cells col))) cols)
        (rows df)).
Proof.
  intros Hp. revert f.
  induction cols as [|col cols IH]; intros f Hcols; cbn [search_loop existsb].
  - f_equal. apply map_ext. intros cells. rewrite orb_false_r. reflexivity.
  - rewrite getcol_cells, (Hcols col (or_introl eq_refl)), bind_Ok.
    unfold str_contains, astype_str. rewrite Hp, bind_Ok, bind_Ok.
    rewrite !map_map, zip_with_orb_map.
    rewrite IH by (intros c Hc; apply Hcols; right; exact Hc).
    f_equal. apply map_ext. intros cells. rewrite orb_assoc. reflexivity.
Qed.

Lemma search_loop_stuck df q col cols mask :
  has_column df col = true ->
  (forall p, re_compile q <> Ok p) ->
  search_loop df q (col :: cols) mask =
  (re_compile q ≫= fun _ => Ok mask).
Proof.
  intros Hcol Hq. cbn [search_loop].
  rewrite getcol_cells, Hcol, bind_Ok. unfold str_contains.
  destruct (re_compile q) as [p| |]; [destruct (Hq p); reflexivity | |];
    reflexivity.
Qed.

Lemma global_search_criterion df q :
  global_search df q =
  (text_criterion df q ≫= fun keep => Ok (keep_rows df keep)).
Proof.
  unfold global_search, text_criterion.
  destruct (String.eqb q ""); cbn [negb].
  { rewrite bind_Ok, keep_rows_all. reflexivity. }
  destruct (select_dtypes_text df) as [|col cols] eqn:Hsel;
    cbn [length Nat.ltb Nat.leb].
  { rewrite bind_Ok, keep_rows_all. reflexivity. }
  assert (Hcols : forall c, In c (col :: cols) -> has_column df c = true).
  { intros c Hc. apply select_dtypes_text_has. rewrite Hsel. exact Hc. }
  destruct (re_compile q) as [p| |] eqn:Hp.
  - rewrite replicate_false_map, (search_loop_rows _ _ _ _ _ Hp Hcols).
    rewrite !bind_Ok. unfold boolean_index, keep_rows.
    rewrite mask_rows_map. reflexivity.
  - rewrite search_loop_stuck, Hp;
      [reflexivity | apply Hcols; left; reflexivity | congruence].
  - rewrite search_loop_stuck, Hp;
      [reflexivity | apply Hcols; left; reflexivity | congruence].
Qed.

Lemma capacity_filter_criterion df selector :
  capacity_filter df selector =
  Ok (keep_rows df (capacity_criterion df selector)).
Proof.
  unfold capacity_filter, capacity_criterion, keep_rows.
  destruct (negb (String.eqb selector "All")); cbn [andb].
  - rewrite getcol_cells.
    destruct (has_column df SERVING_CAP_COL).
    + rewrite bind_Ok. unfold boolean_index, astype_str.
      rewrite !map_map, mask_rows_map. reflexivity.
    + rewrite filter_true. destruct df; reflexivity.
  - rewrite filter_true. destruct df; reflexivity.
Qed.

(** ** Field extractor *)

Lemma location_loop_omap row cols acc :
  location_loop row cols acc = (acc ++ omap (present_text row) cols)%list.
Proof.
  revert acc.
  induction cols as [|col cols IH]; intros acc; cbn [location_loop].
  - cbn. rewrite app_nil_r. reflexivity.
  - rewrite IH.
    replace (omap (present_text row) (col :: cols))
      with (match present_text row col with
            | Some t => t :: omap (present_text row) cols
            | None => omap (present_text row) cols
            end) by reflexivity.
    destruct (row !! col) as [v|] eqn:Hr; [destruct (notna v) eqn:Hv|].
    + replace (present_text row col) with (Some (py_str v))
        by (unfold present_text; rewrite Hr, Hv; reflexivity).
      rewrite <- app_assoc. reflexivity.
    + replace (present_text row col) with (@None string)
        by (unfold present_text; rewrite Hr, Hv; reflexivity).
      reflexivity.
    + replace (present_text row col) with (@None string)
        by (unfold present_text; rewrite Hr; reflexivity).
      reflexivity.
Qed.

Lemma extract_vendor_info_location row info :
  extract_vendor_info row = Ok info ->
  info !! "location" = Some (VStr (compose_location row)).
Proof.
  unfold extract_vendor_info.
  destruct (compose_cuisine row) as [c| |]; cbn; [|discriminate..].
  intros H. injection H as <-. reflexivity.
Qed.

(** C4. For every row the location is the string forms of the present
    cells under Area, Area 1, City, Other City 1, State, in that order,
    joined by a comma and a space, and a dash when none is present; the
    record of the row carries it under the key location. *)
Theorem location_composition (row : gmap string Value) :
  compose_location row =
    match omap (present_text row)
            ["Area"; "Area 1"; "City"; "Other City 1"; "State"] with
    | [] => "-"
    | texts => str_join ", " texts
    end /\
  match extract_vendor_info row with
  | Ok info => info !! "location" = Some (VStr (compose_location row))
  | _ => True
  end.
Proof.
  split.
  - unfold compose_location. rewrite location_loop_omap. cbn [app].
    unfold location_columns, AREA_COL, AREA_1_COL, CITY_COL, OTHER_CITY_COL,
      STATE_COL.
    destruct (omap (present_text row) _); reflexivity.
  - destruct (extract_vendor_info row) eqn:H; [|exact I..].
    apply extract_vendor_info_location. exact H.
Qed.

Example location_downtown :
  compose_location
    (<["Area" := VStr "Downtown"]> (<["City" := VStr "Springfield"]>
       (<["State" := VStr "IL"]> ∅)))
  = "Downtown, Springfield, IL".
Proof. vm_compute. reflexivity. Qed.

Example location_all_absent :
  compose_location ∅ = "-" /\
  compose_location (<["Area" := VNaN]> (<["City" := VNaN]> ∅)) = "-".
Proof. split; vm_compute; reflexivity. Qed.

Lemma safe_get_absent row col default :
  row !! col = None -> safe_get row col default = default.
Proof. unfold safe_get. intros ->. reflexivity. Qed.

Lemma safe_get_missing row col default :
  row !! col = Some VNaN -> safe_get row col default = default.
Proof. unfold safe_get. intros ->. reflexivity. Qed.

Lemma safe_get_cases row col default :
  safe_get row col default = default \/
  (row !! col = Some (safe_get row col default) /\
   notna (safe_get row col default) = true).
Proof.
  unfold safe_get. destruct (row !! col) as [v|]; [|left; reflexivity].
  destruct (notna v) eqn:Hv; [right; split; [reflexivity | exact Hv]|].
  left; reflexivity.
Qed.

Lemma extract_vendor_info_keys row info :
  extract_vendor_info row = Ok info -> dom info = info_keys.
Proof.
  unfold extract_vendor_info.
  destruct (compose_cuisine row) as [c| |]; cbn; [|discriminate..].
  intros H. injection H as <-.
  rewrite !dom_insert_L, dom_empty_L. unfold info_keys. set_solver.
Qed.

Lemma safe_get_textual row col :
  text_or_missing row col ->
  exists s, safe_get row col (VStr "") = VStr s.
Proof.
  unfold text_or_missing, safe_get.
  destruct (row !! col) as [[s|z|b|]|]; cbn; intros H;
    (contradiction || eauto).
Qed.

Lemma compose_cuisine_textual row :
  text_or_missing row CUISINE_1_COL ->
  text_or_missing row CUISINE_2_COL ->
  compose_cuisine row =
  Ok (match kept_cuisines row with
      | [] => "-"
      | texts => str_join " / " texts
      end).
Proof.
  intros H1 H2. unfold compose_cuisine, cuisine_parts, kept_cuisines.
  destruct (safe_get_textual _ _ H1) as [s1 ->].
  destruct (safe_get_textual _ _ H2) as [s2 ->].
  cbn [List.filter py_in existsb py_eq py_str].
  rewrite !orb_false_r.
  destruct (String.eqb s1 ""), (String.eqb s1 "-"),
    (String.eqb s2 ""), (String.eqb s2 "-"); reflexivity.
Qed.

Lemma extract_vendor_info_textual row :
  text_or_missing row CUISINE_1_COL ->
  text_or_missing row CUISINE_2_COL ->
  exists info, extract_vendor_info row = Ok info /\ dom info = info_keys.
Proof.
  intros H1 H2.
  destruct (extract_vendor_info row) as [info| |] eqn:H.
  - exists info. split; [reflexivity|]. eapply extract_vendor_info_keys, H.
  - unfold extract_vendor_info in H.
    rewrite (compose_cuisine_textual _ H1 H2) in H. discriminate.
  - unfold extract_vendor_info in H.
    rewrite (compose_cuisine_textual _ H1 H2) in H. discriminate.
Qed.

Example cuisine_examples :
  compose_cuisine (<["Cuisine type 1" := VStr "Italian"]>
                     (<["Cuisine Type 2" := VStr ""]> ∅)) = Ok "Italian" /\
  compose_cuisine (<["Cuisine type 1" := VStr "-"]>
                     (<["Cuisine Type 2" := VStr "-"]> ∅)) = Ok "-" /\
  compose_cuisine (<["Cuisine type 1" := VStr "Italian"]>
                     (<["Cuisine Type 2" := VStr "Mexican"]> ∅))
    = Ok "Italian / Mexican".
Proof. repeat split; vm_compute; reflexivity. Qed.

(** C5, at a row whose second cuisine cell is the number 7: the value
    survives line 93 and the join of line 94 raises [TypeError], where
    the claim has the field be the two survivors joined. The location
    path converts with [str] before it joins; this one does not. *)
Theorem cuisine_join_number_raises :
  cuisine_parts (<["Cuisine type 1" := VStr "Thai"]>
                   (<["Cuisine Type 2" := VInt 7]> ∅))
    = [VStr "Thai"; VInt 7] /\
  compose_cuisine (<["Cuisine type 1" := VStr "Thai"]>
                     (<["Cuisine Type 2" := VInt 7]> ∅))
    = Raise TypeError.
Proof. split; vm_compute; reflexivity. Qed.

(** C3, at a row whose only cell is the number 5 under Cuisine type 1:
    no record is returned, [extract_vendor_info] raises the [TypeError]
    of the join at line 94. *)
Theorem extract_number_cuisine_raises :
  extract_vendor_info (<["Cuisine type 1" := VInt 5]> ∅) = Raise TypeError.
Proof. vm_compute. reflexivity. Qed.

(** ** Filter engine *)

Lemma select_dtypes_text_spec df col :
  In col (select_dtypes_text df) <->
  exists d, In (col, d) (columns df) /\ is_textual d = true.
Proof.
  unfold select_dtypes_text. rewrite in_map_iff. split.
  - intros ([l d] & Hl & H). cbn in Hl. subst l.
    apply filter_In in H. exists d. exact H.
  - intros (d & Hin & Hd). exists (col, d). split; [reflexivity|].
    apply filter_In. split; [exact Hin | exact Hd].
Qed.

(** The row test of a plain, non-empty query on a frame with a textual
    column. *)
Lemma text_criterion_plain df q :
  plain_query q = true ->
  q <> "" ->
  select_dtypes_text df <> [] ->
  text_criterion df q =
  Ok (fun cells =>
        existsb (fun col =>
                   re_search (map Literal (list_ascii_of_string q))
                     (py_str (cell df cells col)))
          (select_dtypes_text df)).
Proof.
  intros Hq Hne Hsel. unfold text_criterion.
  destruct (String.eqb q "") eqn:He;
    [apply String.eqb_eq in He; contradiction|].
  destruct (select_dtypes_text df); [contradiction|].
  rewrite (re_compile_plain _ Hq). reflexivity.
Qed.

Lemma text_criterion_total df q :
  plain_query q = true -> exists keep, text_criterion df q = Ok keep.
Proof.
  intros Hq. unfold text_criterion.
  destruct (String.eqb q ""); [eauto|].
  destruct (select_dtypes_text df); [eauto|].
  rewrite (re_compile_plain _ Hq). eauto.
Qed.

(** C2 (amended). For every frame and every query free of the special
    characters of [re]: the text search returns the frame cut down to
    the rows it keeps, and it keeps a row exactly when the query is
    empty, or the frame has no textual column, or the query, compared
    without regard to case, is a substring of the string form of the
    row's cell in some column of textual dtype. *)
Theorem text_search_plain_query (df : DataFrame) (q : string) :
  plain_query q = true ->
  exists keep : list Value -> bool,
    global_search df q = Ok (keep_rows df keep) /\
    forall cells,
      keep cells = true <->
      (q = "" \/ select_dtypes_text df = [] \/
       exists col d,
         In (col, d) (columns df) /\ is_textual d = true /\
         contains_ci q (py_str (cell df cells col))).
Proof.
  intros Hq. rewrite global_search_criterion.
  destruct (String.eqb q "") eqn:He.
  { exists (fun _ => true). unfold text_criterion. rewrite He.
    apply String.eqb_eq in He. split; [reflexivity|]. intros; tauto. }
  apply String.eqb_neq in He.
  destruct (select_dtypes_text df) as [|c0 cs] eqn:Hsel.
  { exists (fun _ => true). unfold text_criterion.
    rewrite (proj2 (String.eqb_neq _ _) He), Hsel.
    split; [reflexivity|]. intros; tauto. }
  rewrite text_criterion_plain by (rewrite ?Hsel; congruence).
  eexists. split; [reflexivity|].
  intros cells. cbv beta. rewrite existsb_exists. split.
  - intros (col & Hin & Hm). right. right.
    apply select_dtypes_text_spec in Hin. destruct Hin as (d & Hin & Hd).
    apply re_search_contains in Hm. eauto 6.
  - intros [H|[H|(col & d & Hin & Hd & Hc)]]; [contradiction | | ].
    + discriminate H.
    + exists col. split.
      * apply select_dtypes_text_spec. eauto.
      * apply re_search_contains. exact Hc.
Qed.

Lemma text_search_plain_query_witness :
  plain_query "pizza" = true /\
  exists keep : list Value -> bool,
    global_search
      (mkFrame [("Vendor Name", DObject); ("Serving Capacity", DInt64)]
         [[VStr "Pizza Palace"; VInt 500]; [VStr "Taco Hut"; VInt 5000]])
      "pizza"
    = Ok (keep_rows
            (mkFrame [("Vendor Name", DObject); ("Serving Capacity", DInt64)]
               [[VStr "Pizza Palace"; VInt 500]; [VStr "Taco Hut"; VInt 5000]])
            keep) /\
    forall cells,
      keep cells = true <->
      ("pizza" = "" \/
       select_dtypes_text
         (mkFrame [("Vendor Name", DObject); ("Serving Capacity", DInt64)]
            [[VStr "Pizza Palace"; VInt 500]; [VStr "Taco Hut"; VInt 5000]])
       = [] \/
       exists col d,
         In (col, d) [("Vendor Name", DObject); ("Serving Capacity", DInt64)] /\
         is_textual d = true /\
         contains_ci "pizza"
           (py_str
              (cell
                 (mkFrame
                    [("Vendor Name", DObject); ("Serving Capacity", DInt64)]
                    [[VStr "Pizza Palace"; VInt 500];
                     [VStr "Taco Hut"; VInt 5000]])
                 cells col))).
Proof.
  split; [reflexivity|].
  apply (text_search_plain_query
           (mkFrame [("Vendor Name", DObject); ("Serving Capacity", DInt64)]
              [[VStr "Pizza Palace"; VInt 500]; [VStr "Taco Hut"; VInt 5000]])
           "pizza").
  reflexivity.
Defined.

Example search_pizza :
  global_search
    (mkFrame [("Vendor Name", DObject); ("Serving Capacity", DInt64)]
       [[VStr "Pizza Palace"; VInt 500]; [VStr "Taco Hut"; VInt 5000]])
    "pizza"
  = Ok (mkFrame [("Vendor Name", DObject); ("Serving Capacity", DInt64)]
          [[VStr "Pizza Palace"; VInt 500]]).
Proof. vm_compute. reflexivity. Qed.

(** A query that opens with a repeat operator, such as a dialling
    prefix, does not compile. *)
Example search_plus_raises :
  global_search one_text "+91" = Raise ReError.
Proof. vm_compute. reflexivity. Qed.

(** Letters beyond A to Z fold too: the query of the one letter U+00E9
    finds the name that ends in its capital U+00C9, and the
    multiplication sign U+00D7 does not fold into the division sign. *)
Example search_accented_letter :
  global_search
    (mkFrame [("Vendor Name", DObject)]
       [[VStr ("CAF" +:+ String (ascii_of_nat 201) EmptyString)];
        [VStr (String (ascii_of_nat 215) EmptyString)]])
    (String (ascii_of_nat 233) EmptyString)
  = Ok (mkFrame [("Vendor Name", DObject)]
          [[VStr ("CAF" +:+ String (ascii_of_nat 201) EmptyString)]]) /\
  global_search
    (mkFrame [("Vendor Name", DObject)]
       [[VStr (String (ascii_of_nat 215) EmptyString)]])
    (String (ascii_of_nat 247) EmptyString)
  = Ok (mkFrame [("Vendor Name", DObject)] []).
Proof. split; vm_compute; reflexivity. Qed.

Lemma not_contains_dot : ~ contains_ci "." "abc".
Proof.
  intros H.
  pose proof (contains_ci_chars "." "abc" "."%char H (or_introl eq_refl))
    as Hin.
  cbn in Hin. intuition discriminate.
Qed.

(** C2, as stated, fails twice: on a frame whose columns, vendor code
    and vendor name, are both numeric the query x keeps the row although
    no textual cell holds it, and on the text abc the query of one dot
    keeps the row although a dot is no substring of abc. *)
Lemma text_search_counterexample :
  ~ substring_search numbers_only "x" /\ ~ substring_search one_text ".".
Proof.
  split.
  - intros (res & Hres & Hrows).
    vm_compute in Hres. injection Hres as <-.
    destruct (proj1 (Hrows [VInt 101; VInt 7]) (or_introl eq_refl))
      as (_ & col & d & Hin & Hd & _).
    destruct Hin as [Hin|[Hin|[]]]; injection Hin as <- <-; discriminate Hd.
  - intros (res & Hres & Hrows).
    vm_compute in Hres. injection Hres as <-.
    destruct (proj1 (Hrows [VStr "abc"]) (or_introl eq_refl))
      as (_ & col & d & Hin & Hd & Hc).
    destruct Hin as [Hin|[]]. injection Hin as <- <-.
    apply not_contains_dot. exact Hc.
Qed.

(** The frame of numbers goes through the whole script: with the query
    x typed, advanced mode shows its one row. *)
Example numbers_only_shown :
  exists cards,
    dashboard numbers_only (mkControls 0 true "x" 0)
    = Ok (SearchResults 1 cards).
Proof. eexists. vm_compute. reflexivity. Qed.

(** C10. For every row of a frame with a missing cell in a column of
    textual dtype, and every query that is, case aside, a substring of
    nan, the text search returns a frame and the row is in it. *)
Theorem nan_query_retains_missing (df : DataFrame) (q : string)
    (cells : list Value) (col : string) :
  In cells (rows df) ->
  In col (select_dtypes_text df) ->
  cell df cells col = VNaN ->
  contains_ci q "nan" ->
  exists res, global_search df q = Ok res /\ In cells (rows res).
Proof.
  intros Hrow Hcol Hnan Hq.
  assert (Hplain : plain_query q = true)
    by (eapply contains_ci_plain; [exact Hq | reflexivity]).
  rewrite global_search_criterion. unfold text_criterion.
  destruct (String.eqb q "").
  { eexists. split; [reflexivity|]. rewrite keep_rows_all. exact Hrow. }
  destruct (select_dtypes_text df) as [|c0 cs] eqn:Hsel; [destruct Hcol|].
  rewrite (re_compile_plain _ Hplain).
  eexists. split; [reflexivity|].
  cbn [keep_rows rows]. apply filter_In. split; [exact Hrow|].
  apply existsb_exists. exists col. split; [exact Hcol|].
  rewrite Hnan. apply re_search_contains. exact Hq.
Qed.

Lemma nan_query_retains_missing_witness :
  exists res,
    global_search
      (mkFrame [("Vendor Name", DObject); ("Email", DObject)]
         [[VStr "Taco Hut"; VNaN]; [VStr "Pizza Palace"; VStr "p@x.io"]])
      "NA"
    = Ok res /\
    In [VStr "Taco Hut"; VNaN] (rows res).
Proof.
  apply (nan_query_retains_missing
           (mkFrame [("Vendor Name", DObject); ("Email", DObject)]
              [[VStr "Taco Hut"; VNaN]; [VStr "Pizza Palace"; VStr "p@x.io"]])
           "NA" [VStr "Taco Hut"; VNaN] "Email").
  - left. reflexivity.
  - right. left. reflexivity.
  - reflexivity.
  - exists "", "n". reflexivity.
Defined.

(** C6. For every frame and selector the capacity filter returns the
    frame cut down to the rows it keeps, and it keeps a row exactly when
    the selector is All, or the frame has no Serving Capacity column, or
    the string form of the row's Serving Capacity cell is the selector,
    character for character. *)
Theorem capacity_filter_exact (df : DataFrame) (selector : string) :
  exists keep : list Value -> bool,
    capacity_filter df selector = Ok (keep_rows df keep) /\
    forall cells,
      keep cells = true <->
      (selector = "All" \/ has_column df "Serving Capacity" = false \/
       py_str (cell df cells "Serving Capacity") = selector).
Proof.
  exists (capacity_criterion df selector).
  split; [apply capacity_filter_criterion|].
  intros cells. unfold capacity_criterion.
  change SERVING_CAP_COL with "Serving Capacity".
  destruct (String.eqb selector "All") eqn:Ha; cbn [negb andb].
  - apply String.eqb_eq in Ha. tauto.
  - apply String.eqb_neq in Ha.
    destruct (has_column df "Serving Capacity").
    + rewrite String.eqb_eq. split; [tauto|].
      intros [H|[H|H]]; [contradiction | discriminate | exact H].
    + tauto.
Qed.

Example capacity_500_not_5000 :
  capacity_filter
    (mkFrame [("Vendor Name", DObject); ("Serving Capacity", DInt64)]
       [[VStr "Pizza Palace"; VInt 500]; [VStr "Taco Hut"; VInt 5000]])
    "500"
  = Ok (mkFrame [("Vendor Name", DObject); ("Serving Capacity", DInt64)]
          [[VStr "Pizza Palace"; VInt 500]]).
Proof. vm_compute. reflexivity. Qed.

Lemma capacity_criterion_keep_rows df keep selector :
  capacity_criterion (keep_rows df keep) selector =
  capacity_criterion df selector.
Proof. reflexivity. Qed.

Lemma advanced_filters_criteria df q selector :
  advanced_filters df q selector =
  (text_criterion df q ≫= fun text_ok =>
   Ok (keep_rows df
         (fun cells => text_ok cells && capacity_criterion df selector cells))).
Proof.
  unfold advanced_filters. rewrite global_search_criterion.
  destruct (text_criterion df q) as [text_ok| |]; [|reflexivity..].
  rewrite !bind_Ok, capacity_filter_criterion, capacity_criterion_keep_rows.
  unfold keep_rows. cbn [columns rows]. rewrite filter_filter. reflexivity.
Qed.

Lemma advanced_filters_total df q selector :
  plain_query q = true ->
  exists res, advanced_filters df q selector = Ok res.
Proof.
  intros Hq. rewrite advanced_filters_criteria.
  destruct (text_criterion_total df q Hq) as [keep ->]. eauto.
Qed.

(** C7. For every frame, query and selector: the text search alone
    keeps the rows passing the text criterion, the capacity filter alone
    keeps the rows passing the capacity criterion, and the advanced
    filters keep the rows passing both; where the query does not compile
    none of the first and third gives a frame. A frame the advanced
    filters return has the columns of the input, and its rows are a
    sublist of the input's rows. *)
Theorem advanced_filters_conjunction (df : DataFrame) (q selector : string) :
  global_search df q =
    (text_criterion df q ≫= fun text_ok => Ok (keep_rows df text_ok)) /\
  capacity_filter df selector =
    Ok (keep_rows df (capacity_criterion df selector)) /\
  advanced_filters df q selector =
    (text_criterion df q ≫= fun text_ok =>
     Ok (keep_rows df
           (fun cells =>
              text_ok cells && capacity_criterion df selector cells))) /\
  match advanced_filters df q selector with
  | Ok res => columns res = columns df /\ sublist (rows res) (rows df)
  | _ => True
  end.
Proof.
  split; [apply global_search_criterion|].
  split; [apply capacity_filter_criterion|].
  split; [apply advanced_filters_criteria|].
  rewrite advanced_filters_criteria.
  destruct (text_criterion df q) as [text_ok| |]; cbn; [|exact I..].
  split; [reflexivity | apply filter_sublist].
Qed.

Example advanced_one_criterion_only :
  advanced_filters
    (mkFrame [("Vendor Name", DObject); ("Serving Capacity", DInt64)]
       [[VStr "Pizza Palace"; VInt 5000]; [VStr "Taco Hut"; VInt 500];
        [VStr "Pizza Point"; VInt 500]])
    "pizza" "500"
  = Ok (mkFrame [("Vendor Name", DObject); ("Serving Capacity", DInt64)]
          [[VStr "Pizza Point"; VInt 500]]).
Proof. vm_compute. reflexivity. Qed.

(** ** Basic mode *)

Lemma filter_none {A : Type} (f : A -> bool) (xs : list A) :
  Forall (fun x => f x = false) xs -> List.filter f xs = [].
Proof.
  induction 1 as [|x xs Hx _ IH]; cbn [List.filter];
    [reflexivity | rewrite Hx; exact IH].
Qed.

Lemma filter_first {A : Type} (f : A -> bool) (before after : list A) x :
  Forall (fun y => f y = false) before ->
  f x = true ->
  List.filter f (before ++ x :: after) = x :: List.filter f after.
Proof.
  intros Hb Hx. rewrite List.filter_app, (filter_none _ _ Hb).
  cbn [app List.filter]. rewrite Hx. reflexivity.
Qed.

Lemma basic_mode_filter df selected :
  has_column df VENDOR_NAME_COL = true ->
  py_eq selected (VStr "All Vendors") = false ->
  basic_mode df selected =
  match List.filter (vendor_criterion df selected) (rows df) with
  | [] => Ok NoDataWarning
  | row :: _ =>
      render_card (row_series df row) ≫= fun card =>
      Ok (VendorOverview (fst card) (snd card))
  end.
Proof.
  intros Hcol Hsel. unfold basic_mode.
  rewrite Hsel, getcol_cells, Hcol, bind_Ok.
  unfold boolean_index. cbn [rows]. rewrite map_map, mask_rows_map.
  reflexivity.
Qed.

Lemma py_eq_text s t : py_eq (VStr s) (VStr t) = true <-> s = t.
Proof. cbn. apply String.eqb_eq. Qed.

Lemma py_eq_text_only v t : py_eq v (VStr t) = true <-> v = VStr t.
Proof.
  destruct v as [s|z|b|]; cbn; try (split; discriminate).
  rewrite String.eqb_eq. split; congruence.
Qed.

(** C8. For every frame with a Vendor Name column and every selection
    other than All Vendors: basic mode shows the no-data warning when no
    row has a Vendor Name cell equal to the selection, and otherwise
    renders the first such row of the frame, whatever follows it; for a
    selected text the cell is equal when it is that very text. *)
Theorem basic_mode_first_match (df : DataFrame) (selected : Value) :
  has_column df "Vendor Name" = true ->
  py_eq selected (VStr "All Vendors") = false ->
  (Forall (fun cells => py_eq (cell df cells "Vendor Name") selected = false)
     (rows df) ->
   basic_mode df selected = Ok NoDataWarning) /\
  (forall before first after,
     rows df = (before ++ first :: after)%list ->
     Forall (fun cells => py_eq (cell df cells "Vendor Name") selected = false)
       before ->
     py_eq (cell df first "Vendor Name") selected = true ->
     basic_mode df selected =
     (render_card (row_series df first) ≫= fun card =>
      Ok (VendorOverview (fst card) (snd card)))) /\
  (forall chosen cells,
     selected = VStr chosen ->
     (py_eq (cell df cells "Vendor Name") selected = true <->
      cell df cells "Vendor Name" = VStr chosen)).
Proof.
  intros Hcol Hsel.
  pose proof (basic_mode_filter df selected Hcol Hsel) as Hb.
  unfold vendor_criterion in Hb.
  change VENDOR_NAME_COL with "Vendor Name" in Hb.
  repeat split.
  - intros Hnone. rewrite Hb, (filter_none _ _ Hnone). reflexivity.
  - intros before first after Hrows Hbefore Hfirst.
    rewrite Hb, Hrows, (filter_first _ _ _ _ Hbefore Hfirst). reflexivity.
  - subst selected. apply py_eq_text_only.
  - subst selected. apply py_eq_text_only.
Qed.

Lemma basic_mode_first_match_witness :
  basic_mode two_palaces (VStr "Pizza Palace") =
  (render_card
     (row_series two_palaces [VStr "Pizza Palace"; VStr "Mumbai"]) ≫= fun card =>
   Ok (VendorOverview (fst card) (snd card))).
Proof.
  refine (proj1 (proj2 (basic_mode_first_match two_palaces (VStr "Pizza Palace")
                          _ _))
            [[VStr "Taco Hut"; VStr "Pune"]]
            [VStr "Pizza Palace"; VStr "Mumbai"]
            [[VStr "Pizza Palace"; VStr "Delhi"]] _ _ _).
  - reflexivity.
  - reflexivity.
  - reflexivity.
  - constructor; [reflexivity | constructor].
  - reflexivity.
Defined.

Example basic_mode_first_city :
  (fun v => match v with
            | Ok (VendorOverview info _) => info !! "location"
            | _ => None
            end) (basic_mode two_palaces (VStr "Pizza Palace"))
  = Some (VStr "Mumbai").
Proof. vm_compute. reflexivity. Qed.

Example basic_mode_no_data :
  basic_mode two_palaces (VStr "pizza palace") = Ok NoDataWarning.
Proof. vm_compute. reflexivity. Qed.

(** ** Loader *)

Lemma lstrip_first s c :
  first_char (lstrip s) = Some c -> is_space c = false.
Proof.
  induction s as [|x s IH]; cbn [lstrip first_char]; [discriminate|].
  destruct (is_space x) eqn:Hx; [exact IH|].
  cbn [first_char]. intros H. injection H as <-. exact Hx.
Qed.

Lemma rstrip_first s :
  (forall c, first_char s = Some c -> is_space c = false) ->
  forall c, first_char (rstrip s) = Some c -> is_space c = false.
Proof.
  destruct s as [|x s]; cbn [rstrip first_char]; [discriminate|].
  intros Hx c. rewrite (Hx x eq_refl).
  destruct (rstrip s); cbn [first_char]; intros H; injection H as <-;
    apply Hx; reflexivity.
Qed.

Lemma rstrip_last s c :
  last_char (rstrip s) = Some c -> is_space c = false.
Proof.
  revert c.
  induction s as [|x s IH]; intros c; cbn [rstrip last_char]; [discriminate|].
  destruct (rstrip s) as [|y kept] eqn:Hk.
  - destruct (is_space x) eqn:Hx; cbn [last_char]; [discriminate|].
    intros H. injection H as <-. exact Hx.
  - intros H. apply IH. exact H.
Qed.

Lemma py_strip_stripped s : stripped (py_strip s).
Proof.
  unfold stripped, py_strip. split.
  - apply rstrip_first. intros c. apply lstrip_first.
  - intros c. apply rstrip_last.
Qed.

Lemma lstrip_split s :
  exists pre, s = pre +:+ lstrip s /\ all_space pre.
Proof.
  induction s as [|c s IH]; cbn [lstrip].
  - exists "". split; [reflexivity | constructor].
  - destruct (is_space c) eqn:Hc.
    + destruct IH as (pre & Hs & Hpre). exists (String c pre). split.
      * change (String c pre +:+ lstrip s) with (String c (pre +:+ lstrip s)).
        f_equal. exact Hs.
      * constructor; assumption.
    + exists "". split; [reflexivity | constructor].
Qed.

Lemma rstrip_split s :
  exists post, s = rstrip s +:+ post /\ all_space post.
Proof.
  induction s as [|c s IH]; cbn [rstrip].
  - exists "". split; [reflexivity | constructor].
  - destruct IH as (post & Hs & Hpost).
    destruct (rstrip s) as [|d kept] eqn:Hk.
    + change ("" +:+ post) with post in Hs. subst post. destruct (is_space c) eqn:Hc.
      * exists (String c s). split; [reflexivity | constructor; assumption].
      * exists s. split; [reflexivity | exact Hpost].
    + exists post. split; [|exact Hpost].
      change (String c (String d kept) +:+ post)
        with (String c (String d kept +:+ post)).
      f_equal. exact Hs.
Qed.

Lemma py_strip_split s :
  exists pre post,
    s = pre +:+ py_strip s +:+ post /\ all_space pre /\ all_space post.
Proof.
  destruct (lstrip_split s) as (pre & Hs & Hpre).
  destruct (rstrip_split (lstrip s)) as (post & Hl & Hpost).
  exists pre, post. unfold py_strip.
  split; [|split; assumption]. rewrite <- Hl. exact Hs.
Qed.




Lemma strip_columns_integers sheet :
  integer_index (header sheet) = true ->
  strip_columns sheet = Raise AttributeError.
Proof.
  unfold strip_columns. intros H.
  destruct (header sheet) as [|[[s|n|b|] d] rest]; cbn in H |- *;
    try discriminate H.
  cbn in H. rewrite H. reflexivity.
Qed.

(** C9. An upload can parse and still leave the loader without a frame:
    when the parser chosen by the extension returns a sheet whose header
    cells are all integers, line 62 raises [AttributeError]; no header is
    stripped and no column is accessible under any name. *)
Theorem load_integer_headers_raise
    (read_csv read_excel : UploadedFile -> Outcome ParsedSheet)
    (uploaded_file : UploadedFile) (sheet : ParsedSheet) :
  (if endswith (lower (name uploaded_file)) ".csv"
   then read_csv uploaded_file else read_excel uploaded_file) = Ok sheet ->
  integer_index (header sheet) = true ->
  load_vendor_data read_csv read_excel uploaded_file = Raise AttributeError.
Proof.
  intros Hparsed Hint. unfold load_vendor_data.
  destruct (endswith (lower (name uploaded_file)) ".csv");
    rewrite Hparsed; apply strip_columns_integers; exact Hint.
Qed.

Lemma load_integer_headers_raise_witness :
  load_vendor_data (fun _ => Raise ImportError) (fun _ => Ok year_sheet)
    (mkUpload "sales.xlsx" []) = Raise AttributeError.
Proof.
  apply (load_integer_headers_raise (fun _ => Raise ImportError)
           (fun _ => Ok year_sheet) (mkUpload "sales.xlsx" []) year_sheet).
  - reflexivity.
  - reflexivity.
Defined.

Example strip_no_break_space :
  py_strip (String (ascii_of_nat 160) "Vendor Name"
            +:+ String (ascii_of_nat 160) (String (ascii_of_nat 133) ""))
  = "Vendor Name".
Proof. vm_compute. reflexivity. Qed.

Example strip_vendor_code :
  py_strip "  Vendor Code " = "Vendor Code" /\
  (load_vendor_data (fun _ => Ok padded_header) (fun _ => Raise ImportError)
     (mkUpload "vendors.csv" []) ≫= fun df => Ok (has_column df "Vendor Code"))
  = Ok true.
Proof. split; vm_compute; reflexivity. Qed.

Example load_without_openpyxl_stops :
  load_vendor_data (fun _ => Ok padded_header) (fun _ => Raise ImportError)
    (mkUpload "vendors.xlsx" [])
  = Raise StopException.
Proof. vm_compute. reflexivity. Qed.

(** ** The script *)

Lemma dashboard_needs_vendor_name df ui :
  has_column df VENDOR_NAME_COL = false -> dashboard df ui = Raise KeyError.
Proof.
  intros H. unfold dashboard.
  rewrite (getcol_cells df VENDOR_NAME_COL), H. reflexivity.
Qed.

(** C1, at a frame whose only column is Vendor Code: whatever the user
    does with the widgets, line 188 raises [KeyError] on the absent
    Vendor Name column and nothing is rendered, where the claim has the
    page come up with placeholders. The Serving Capacity column is
    guarded by a membership test at line 207; this one is not. *)
Theorem dashboard_without_vendor_name (ui : Controls) :
  has_column code_only "Vendor Name" = false /\
  dashboard code_only ui = Raise KeyError /\
  extract_vendor_info (row_series code_only [VStr "V-001"]) ≫=
    (fun info => Ok (info !! "vendor_name")) = Ok (Some (VStr "-")).
Proof.
  split; [reflexivity|].
  split; [apply dashboard_needs_vendor_name; reflexivity|].
  vm_compute. reflexivity.
Qed.

Lemma dashboard_renders_has_vendor_name df ui view :
  dashboard df ui = Ok view -> has_column df VENDOR_NAME_COL = true.
Proof.
  intros H. destruct (has_column df VENDOR_NAME_COL) eqn:Hc; [reflexivity|].
  rewrite (dashboard_needs_vendor_name _ ui Hc) in H. discriminate.
Qed.

(** * Further properties of the code *)

(** ** Field extractor *)

Lemma safe_get_present row col default :
  safe_get row col default =
  match present_cell row col with
  | Some v => v
  | None => default
  end.
Proof.
  unfold safe_get, present_cell.
  destruct (row !! col) as [v|]; [destruct (notna v)|]; reflexivity.
Qed.

Lemma safe_get_notna row col default :
  notna default = true -> notna (safe_get row col default) = true.
Proof.
  intros Hd. unfold safe_get.
  destruct (row !! col) as [v|]; [|exact Hd].
  destruct (notna v) eqn:Hv; [exact Hv | exact Hd].
Qed.

Lemma location_loop_ext r1 r2 cols acc :
  (forall c, In c cols -> present_cell r1 c = present_cell r2 c) ->
  location_loop r1 cols acc = location_loop r2 cols acc.
Proof.
  revert acc.
  induction cols as [|col cols IH]; intros acc H; cbn [location_loop];
    [reflexivity|].
  pose proof (H col (or_introl eq_refl)) as Hc. unfold present_cell in Hc.
  assert (Hacc :
    match r1 !! col with
    | Some v => if notna v then (acc ++ [py_str v])%list else acc
    | None => acc
    end =
    match r2 !! col with
    | Some v => if notna v then (acc ++ [py_str v])%list else acc
    | None => acc
    end).
  { destruct (r1 !! col) as [v1|], (r2 !! col) as [v2|];
      try destruct (notna v1); try destruct (notna v2);
      try discriminate; try reflexivity; congruence. }
  rewrite Hacc. apply IH. intros c Hin. apply H. right. exact Hin.
Qed.

Ltac solve_read_column :=
  unfold read_columns; cbn [In]; repeat first [left; reflexivity | right].

Lemma extract_vendor_info_ext r1 r2 :
  (forall c, In c read_columns -> present_cell r1 c = present_cell r2 c) ->
  extract_vendor_info r1 = extract_vendor_info r2.
Proof.
  intros H.
  assert (Hs : forall c d, In c read_columns ->
                           safe_get r1 c d = safe_get r2 c d).
  { intros c d Hc. rewrite !safe_get_present, (H c Hc). reflexivity. }
  assert (Hl : compose_location r1 = compose_location r2).
  { unfold compose_location.
    rewrite (location_loop_ext r1 r2 location_columns []); [reflexivity|].
    intros c Hc. apply H. unfold location_columns in Hc. cbn [In] in Hc.
    intuition (subst c; solve_read_column). }
  unfold extract_vendor_info, compose_cuisine, cuisine_parts.
  rewrite Hl.
  rewrite (Hs VENDOR_CODE_COL), (Hs VENDOR_NAME_COL), (Hs NAME_COL),
    (Hs PHONE_COL), (Hs EMAIL_COL), (Hs CATEGORY_COL), (Hs CUISINE_1_COL),
    (Hs CUISINE_2_COL), (Hs SERVICE_MODEL_COL), (Hs SERVING_CAP_COL)
    by solve_read_column.
  reflexivity.
Qed.

Lemma compose_cuisine_number row :
  ~ (text_or_missing row CUISINE_1_COL /\ text_or_missing row CUISINE_2_COL) ->
  compose_cuisine row = Raise TypeError.
Proof.
  unfold text_or_missing, compose_cuisine, cuisine_parts, safe_get.
  destruct (row !! CUISINE_1_COL) as [[s1|z1|b1|]|],
           (row !! CUISINE_2_COL) as [[s2|z2|b2|]|];
    cbn [notna]; intros H; try (exfalso; apply H; split; exact I);
    cbn [List.filter py_in existsb py_eq as_int negb orb];
    repeat match goal with
           | |- context [String.eqb ?a ?b] => destruct (String.eqb a b)
           end; reflexivity.
Qed.

(** X1. On a row that holds one cell under each of its labels, as the
    rows of a frame with distinct labels do, [extract_vendor_info] has
    two outcomes only. When each of the two cuisine cells is absent,
    missing or a text it returns a record; when one of them holds a
    number or a boolean it raises [TypeError]. No other exception leaves
    it. *)
Theorem extract_vendor_info_outcome (row : gmap string Value) :
  (text_or_missing row "Cuisine type 1" /\
   text_or_missing row "Cuisine Type 2" /\
   exists info, extract_vendor_info row = Ok info) \/
  (~ (text_or_missing row "Cuisine type 1" /\
      text_or_missing row "Cuisine Type 2") /\
   extract_vendor_info row = Raise TypeError).
Proof.
  change "Cuisine type 1" with CUISINE_1_COL.
  change "Cuisine Type 2" with CUISINE_2_COL.
  assert (Hdec : (text_or_missing row CUISINE_1_COL /\
                  text_or_missing row CUISINE_2_COL) \/
                 ~ (text_or_missing row CUISINE_1_COL /\
                    text_or_missing row CUISINE_2_COL)).
  { unfold text_or_missing.
    destruct (row !! CUISINE_1_COL) as [[| | |]|],
             (row !! CUISINE_2_COL) as [[| | |]|]; tauto. }
  destruct Hdec as [[H1 H2]|Hn].
  - left. split; [exact H1|]. split; [exact H2|].
    destruct (extract_vendor_info_textual row H1 H2) as (info & Hi & _).
    eauto.
  - right. split; [exact Hn|].
    unfold extract_vendor_info. rewrite (compose_cuisine_number row Hn).
    reflexivity.
Qed.

(** X2. No value of a returned record is missing: every key holds a
    cell of the row that is not NaN, or a text the extractor built. *)
Theorem extract_vendor_info_no_missing (row info : gmap string Value)
    (key : string) (v : Value) :
  extract_vendor_info row = Ok info ->
  info !! key = Some v ->
  notna v = true.
Proof.
  unfold extract_vendor_info.
  destruct (compose_cuisine row) as [c| |]; cbn; [|discriminate..].
  intros H. injection H as <-. intros Hk.
  repeat (apply lookup_insert_Some in Hk;
          destruct Hk as [[_ <-]|[_ Hk]];
          [first [reflexivity | apply safe_get_notna; reflexivity]|]).
  rewrite lookup_empty in Hk. discriminate.
Qed.

Lemma extract_vendor_info_no_missing_witness :
  notna (VStr "-") = true.
Proof.
  apply (extract_vendor_info_no_missing
           (<["Phone Number" := VNaN]> ∅)
           (<["serving_capacity" := VStr "-"]>
            (<["service_model" := VStr "-"]>
            (<["cuisine_text" := VStr "-"]>
            (<["category" := VStr "-"]>
            (<["location" := VStr "-"]>
            (<["email" := VStr "-"]>
            (<["phone" := VStr "-"]>
            (<["owner_name" := VStr "-"]>
            (<["vendor_name" := VStr "-"]>
            (<["vendor_code" := VStr "-"]> ∅))))))))))
           "phone" (VStr "-")).
  - vm_compute. reflexivity.
  - vm_compute. reflexivity.
Defined.

(** X3. A missing cell and an absent column are the same to the
    extractor: the row with NaN under a label gives what the row without
    that label gives. *)
Theorem extract_vendor_info_missing_is_absent (row : gmap string Value)
    (col : string) :
  extract_vendor_info (<[col := VNaN]> row) =
  extract_vendor_info (delete col row).
Proof.
  apply extract_vendor_info_ext. intros c _. unfold present_cell.
  destruct (decide (col = c)) as [->|Hne].
  - rewrite lookup_insert_eq, lookup_delete_eq. reflexivity.
  - rewrite lookup_insert_ne, lookup_delete_ne by exact Hne. reflexivity.
Qed.

(** X4. The extractor reads the fifteen labels of [read_columns] and
    nothing else: a cell under any other label, the three certification
    columns among them, does not change its outcome. *)
Theorem extract_vendor_info_ignores_unread (row : gmap string Value)
    (col : string) (v : Value) :
  ~ In col read_columns ->
  extract_vendor_info (<[col := v]> row) = extract_vendor_info row /\
  ~ In "Certification 1" read_columns /\
  ~ In "Certification 2" read_columns /\
  ~ In "Certification 3" read_columns.
Proof.
  intros Hcol. split.
  - apply extract_vendor_info_ext. intros c Hc. unfold present_cell.
    rewrite lookup_insert_ne; [reflexivity|].
    intros ->. contradiction.
  - unfold read_columns. cbn [In].
    repeat split; intros H; intuition discriminate.
Qed.

Lemma extract_vendor_info_ignores_unread_witness :
  extract_vendor_info
    (<["Certification 1" := VInt 9001]> (<["City" := VStr "Pune"]> ∅)) =
  extract_vendor_info (<["City" := VStr "Pune"]> ∅).
Proof.
  refine (proj1 (extract_vendor_info_ignores_unread
                   (<["City" := VStr "Pune"]> ∅) "Certification 1"
                   (VInt 9001) _)).
  unfold read_columns. cbn [In]. intros H. intuition discriminate.
Defined.

Lemma extract_vendor_info_record row info :
  extract_vendor_info row = Ok info <->
  exists cuisine_text,
    compose_cuisine row = Ok cuisine_text /\
    info =
      <["serving_capacity" := safe_get row SERVING_CAP_COL dash]>
      (<["service_model" := safe_get row SERVICE_MODEL_COL dash]>
      (<["cuisine_text" := VStr cuisine_text]>
      (<["category" := safe_get row CATEGORY_COL dash]>
      (<["location" := VStr (compose_location row)]>
      (<["email" := safe_get row EMAIL_COL dash]>
      (<["phone" := safe_get row PHONE_COL dash]>
      (<["owner_name" := safe_get row NAME_COL dash]>
      (<["vendor_name" := safe_get row VENDOR_NAME_COL dash]>
      (<["vendor_code" := safe_get row VENDOR_CODE_COL dash]> ∅))))))))).
Proof.
  unfold extract_vendor_info.
  destruct (compose_cuisine row) as [c| |]; cbn.
  - split.
    + intros H. injection H as <-. eauto.
    + intros (c' & Hc & ->). injection Hc as <-. reflexivity.
  - split; [discriminate | intros (c' & Hc & _); discriminate].
  - split; [discriminate | intros (c' & Hc & _); discriminate].
Qed.

(** X5. Rendering adds no failure to extraction: a card is rendered
    exactly when the extractor returns the record, every [info[key]] of
    [render_owner_and_vendor_boxes] finds its key, and the eight values
    written are owner name, phone, email, location, category, cuisine,
    service model and serving capacity of the row, in that order. *)
Theorem render_card_boxes (row info : gmap string Value)
    (boxes : list Value) :
  render_card row = Ok (info, boxes) <->
  extract_vendor_info row = Ok info /\
  exists cuisine_text,
    compose_cuisine row = Ok cuisine_text /\
    boxes =
      [safe_get row "Name" dash; safe_get row "Phone Number" dash;
       safe_get row "Email" dash; VStr (compose_location row);
       safe_get row "Category" dash; VStr cuisine_text;
       safe_get row "Service Model" dash;
       safe_get row "Serving Capacity" dash].
Proof.
  unfold render_card. split.
  - destruct (extract_vendor_info row) as [i| |] eqn:Hi; cbn;
      [|discriminate..].
    apply extract_vendor_info_record in Hi.
    destruct Hi as (c & Hc & ->).
    unfold render_owner_and_vendor_boxes, getitem.
    simplify_map_eq. cbn. intros H. injection H as <- <-.
    split; [reflexivity|]. exists c. split; [exact Hc | reflexivity].
  - intros (Hi & c & Hc & ->). rewrite Hi. cbn.
    apply extract_vendor_info_record in Hi.
    destruct Hi as (c' & Hc' & ->).
    rewrite Hc in Hc'. injection Hc' as <-.
    unfold render_owner_and_vendor_boxes, getitem.
    simplify_map_eq. reflexivity.
Qed.

(** ** Filter engine *)

Lemma existsb_pointwise {A : Type} (f g : A -> bool) (l : list A) :
  (forall x, f x = g x) -> existsb f l = existsb g l.
Proof.
  intros H. induction l as [|x l IH]; cbn [existsb];
    [reflexivity | rewrite H, IH; reflexivity].
Qed.

Lemma keep_rows_pointwise df (f g : list Value -> bool) :
  (forall cells, f cells = g cells) -> keep_rows df f = keep_rows df g.
Proof.
  intros H. unfold keep_rows. f_equal. apply List.filter_ext. exact H.
Qed.

Lemma keep_rows_twice df (f g : list Value -> bool) :
  keep_rows (keep_rows df f) g = keep_rows df (fun cells => f cells && g cells).
Proof. unfold keep_rows. cbn [columns rows]. rewrite filter_filter. reflexivity. Qed.

Lemma text_criterion_keep_rows df keep q :
  text_criterion (keep_rows df keep) q = text_criterion df q.
Proof. reflexivity. Qed.

(** X6. Filtering is idempotent: the advanced filters applied, with the
    same query and selector, to a frame they returned give that frame
    back. *)
Theorem advanced_filters_idempotent (df res : DataFrame)
    (q selector : string) :
  advanced_filters df q selector = Ok res ->
  advanced_filters res q selector = Ok res.
Proof.
  rewrite !advanced_filters_criteria.
  destruct (text_criterion df q) as [text_ok| |] eqn:Ht; cbn;
    [|discriminate..].
  intros H. injection H as <-.
  rewrite text_criterion_keep_rows, Ht. cbn.
  rewrite keep_rows_twice. f_equal. apply keep_rows_pointwise.
  intros cells.
  change (capacity_criterion (keep_rows df _) selector cells)
    with (capacity_criterion df selector cells).
  destruct (text_ok cells), (capacity_criterion df selector cells);
    reflexivity.
Qed.

Lemma advanced_filters_idempotent_witness :
  advanced_filters
    (mkFrame [("Vendor Name", DObject); ("Serving Capacity", DInt64)]
       [[VStr "Pizza Point"; VInt 500]])
    "pizza" "500"
  = Ok (mkFrame [("Vendor Name", DObject); ("Serving Capacity", DInt64)]
          [[VStr "Pizza Point"; VInt 500]]).
Proof.
  apply (advanced_filters_idempotent
           (mkFrame [("Vendor Name", DObject); ("Serving Capacity", DInt64)]
              [[VStr "Pizza Palace"; VInt 5000]; [VStr "Taco Hut"; VInt 500];
               [VStr "Pizza Point"; VInt 500]])).
  vm_compute. reflexivity.
Defined.

(** X7. The two filters commute: the capacity filter first and the
    text search on its result give the outcome of the script's order,
    the same frame or the same failure. *)
Theorem filters_commute (df : DataFrame) (q selector : string) :
  (capacity_filter df selector ≫= fun results_df => global_search results_df q)
  = advanced_filters df q selector.
Proof.
  rewrite advanced_filters_criteria, capacity_filter_criterion, bind_Ok.
  rewrite global_search_criterion, text_criterion_keep_rows.
  destruct (text_criterion df q) as [text_ok| |]; cbn; [|reflexivity..].
  rewrite keep_rows_twice. f_equal. apply keep_rows_pointwise.
  intros cells. apply andb_comm.
Qed.

Lemma lower_char_idem c : lower_char (lower_char c) = lower_char c.
Proof. destruct c as [[] [] [] [] [] [] [] []]; reflexivity. Qed.

Lemma is_special_lower_eq c : is_special (lower_char c) = is_special c.
Proof. destruct c as [[] [] [] [] [] [] [] []]; reflexivity. Qed.

Lemma is_repeat_lower_eq c : is_repeat (lower_char c) = is_repeat c.
Proof. destruct c as [[] [] [] [] [] [] [] []]; reflexivity. Qed.

Lemma is_dot_lower_eq c : Ascii.eqb (lower_char c) "." = Ascii.eqb c ".".
Proof. destruct c as [[] [] [] [] [] [] [] []]; reflexivity. Qed.

Lemma re_parse_lower q :
  re_parse (lower q) = (map lower_atom <$> re_parse q).
Proof.
  induction q as [|c q IH]; cbn [lower re_parse]; [reflexivity|].
  rewrite is_dot_lower_eq, is_special_lower_eq, IH.
  destruct (Ascii.eqb c "."); [destruct (re_parse q); reflexivity|].
  destruct (is_special c); [reflexivity|].
  destruct (re_parse q); reflexivity.
Qed.

Lemma re_compile_lower q :
  re_compile (lower q) =
  (re_compile q ≫= fun atoms => Ok (map lower_atom atoms)).
Proof.
  unfold re_compile. destruct q as [|c q]; [reflexivity|].
  change (lower (String c q)) with (String (lower_char c) (lower q)) at 1.
  cbv iota. rewrite is_repeat_lower_eq.
  destruct (is_repeat c); [reflexivity|].
  change (String (lower_char c) (lower q)) with (lower (String c q)).
  rewrite re_parse_lower.
  destruct (re_parse (String c q)); reflexivity.
Qed.

Lemma match_here_lower atoms s :
  match_here (map lower_atom atoms) s = match_here atoms s.
Proof.
  revert s. induction atoms as [|a atoms IH]; intros s; [reflexivity|].
  destruct s as [|x s]; [reflexivity|].
  cbn [map match_here]. rewrite IH. f_equal.
  destruct a; cbn [lower_atom atom_matches];
    [rewrite lower_char_idem|]; reflexivity.
Qed.

Lemma re_search_lower atoms s :
  re_search (map lower_atom atoms) s = re_search atoms s.
Proof.
  induction s as [|x s IH]; cbn [re_search]; rewrite match_here_lower;
    [reflexivity | rewrite IH; reflexivity].
Qed.

Lemma eqb_lower_empty q : String.eqb (lower q) "" = String.eqb q "".
Proof. destruct q; reflexivity. Qed.

Lemma global_search_lower df q :
  global_search df (lower q) = global_search df q.
Proof.
  rewrite !global_search_criterion. unfold text_criterion.
  rewrite eqb_lower_empty.
  destruct (String.eqb q ""); [reflexivity|].
  destruct (select_dtypes_text df) as [|col cols]; [reflexivity|].
  rewrite re_compile_lower.
  destruct (re_compile q) as [atoms| |]; cbn; [|reflexivity..].
  f_equal. apply keep_rows_pointwise. intros cells.
  rewrite re_search_lower. f_equal.
  apply existsb_pointwise. intros c. apply re_search_lower.
Qed.

Lemma re_parse_dotted q :
  dotted_query q = true -> exists atoms, re_parse q = Some atoms.
Proof.
  unfold dotted_query.
  induction q as [|c q IH]; cbn [list_ascii_of_string forallb re_parse];
    [eauto|].
  rewrite andb_true_iff, orb_true_iff, negb_true_iff. intros [Hc Hq].
  destruct (IH Hq) as [atoms ->].
  destruct (Ascii.eqb c "."); [cbn; eauto|].
  destruct Hc as [Hc|Hc]; [discriminate|]. rewrite Hc. cbn. eauto.
Qed.

Lemma global_search_dotted df q :
  dotted_query q = true -> global_search df q <> Beyond.
Proof.
  intros Hq. rewrite global_search_criterion. unfold text_criterion.
  destruct (String.eqb q ""); [discriminate|].
  destruct (select_dtypes_text df); [discriminate|].
  unfold re_compile. destruct q as [|c q]; [discriminate|].
  destruct (is_repeat c); [discriminate|].
  destruct (re_parse_dotted _ Hq) as [atoms ->]. discriminate.
Qed.

(** X8. The text search does not see the letter case of the query: for
    queries made of literal characters and dots, two with the same
    lower-case form have the same outcome on every frame, the same rows
    kept or the same [re.error]. *)
Theorem global_search_query_case (df : DataFrame) (q1 q2 : string) :
  dotted_query q1 = true ->
  lower q1 = lower q2 ->
  global_search df q1 = global_search df q2 /\
  global_search df q1 <> Beyond.
Proof.
  intros Hq H. split; [|apply global_search_dotted; exact Hq].
  rewrite <- (global_search_lower df q1), <- (global_search_lower df q2), H.
  reflexivity.
Qed.

Lemma global_search_query_case_witness :
  global_search one_text "A.C" = global_search one_text "a.c" /\
  global_search one_text "A.C" <> Beyond.
Proof.
  apply (global_search_query_case one_text "A.C" "a.c"); reflexivity.
Defined.

(** X9. Whether a query that opens with one of the repeat operators
    raises is decided by the columns alone: with a column of textual
    dtype the pattern is compiled and [re.error] is raised, be there
    rows or none; with no such column the pattern is never compiled and
    the frame comes back as it is. *)
Theorem global_search_repeat_first (df : DataFrame) (c : ascii)
    (rest : string) :
  is_repeat c = true ->
  global_search df (String c rest) =
  match select_dtypes_text df with
  | [] => Ok df
  | _ :: _ => Raise ReError
  end.
Proof.
  intros Hc. rewrite global_search_criterion. unfold text_criterion.
  cbn [String.eqb].
  destruct (select_dtypes_text df) as [|col cols].
  - rewrite bind_Ok, keep_rows_all. reflexivity.
  - unfold re_compile. rewrite Hc. reflexivity.
Qed.

Lemma global_search_repeat_first_witness :
  global_search no_rows "+91" = Raise ReError.
Proof.
  apply (global_search_repeat_first no_rows "+"%char "91"). reflexivity.
Defined.

(** ** Rows as the extractor sees them *)

Lemma list_to_map_zip_lookup (names : list string) (cells : list Value)
    (col : string) :
  (list_to_map (zip names cells) : gmap string Value) !! col =
  match col_index names col with
  | Some i => cells !! i
  | None => None
  end.
Proof.
  revert cells.
  induction names as [|l names IH]; intros cells; cbn [zip zip_with col_index].
  - apply lookup_empty.
  - destruct cells as [|c cells].
    + cbn. rewrite lookup_empty.
      destruct (String.eqb l col); [reflexivity|].
      destruct (col_index names col); reflexivity.
    + cbn [zip_with list_to_map foldr fst snd].
      change (foldr (fun p => <[p.1:=p.2]>) ∅ (zip_with pair names cells))
        with (list_to_map (zip names cells) : gmap string Value).
      destruct (String.eqb l col) eqn:He.
      * apply String.eqb_eq in He. subst l.
        rewrite lookup_insert_eq. reflexivity.
      * apply String.eqb_neq in He.
        rewrite lookup_insert_ne by exact He. rewrite IH.
        destruct (col_index names col); reflexivity.
Qed.

(** [safe_get] on the labelled row reads the cell the filters test. *)
Lemma safe_get_row_series df cells col default :
  safe_get (row_series df cells) col default =
  if notna (cell df cells col) then cell df cells col else default.
Proof.
  unfold safe_get, row_series, cell. rewrite list_to_map_zip_lookup.
  destruct (col_index (labels df) col) as [i|]; [|reflexivity].
  rewrite nth_lookup. destruct (cells !! i) as [v|]; reflexivity.
Qed.

Lemma render_card_extract row info boxes :
  render_card row = Ok (info, boxes) -> extract_vendor_info row = Ok info.
Proof.
  unfold render_card.
  destruct (extract_vendor_info row) as [i| |]; cbn; [|discriminate..].
  destruct (render_owner_and_vendor_boxes i); cbn; [|discriminate..].
  intros H. injection H as <- _. reflexivity.
Qed.

Lemma extract_vendor_info_vendor_name row info :
  extract_vendor_info row = Ok info ->
  info !! "vendor_name" = Some (safe_get row VENDOR_NAME_COL dash).
Proof.
  intros H. apply extract_vendor_info_record in H.
  destruct H as (c & _ & ->). reflexivity.
Qed.

Lemma filter_head {A : Type} (f : A -> bool) (l : list A) x rest :
  List.filter f l = x :: rest -> In x l /\ f x = true.
Proof.
  intros H. apply filter_In. rewrite H. left. reflexivity.
Qed.

Lemma py_eq_notna a b : py_eq a b = true -> notna a = true.
Proof. destruct a, b; cbn; intros H; (discriminate || reflexivity). Qed.

Lemma py_eq_refl v : notna v = true -> py_eq v v = true.
Proof.
  destruct v as [s|z|b|]; cbn; intros H.
  - apply String.eqb_refl.
  - apply Z.eqb_refl.
  - apply Z.eqb_refl.
  - discriminate.
Qed.

Lemma basic_mode_no_column df selected :
  has_column df VENDOR_NAME_COL = false ->
  basic_mode df selected = Ok SelectVendorPrompt \/
  basic_mode df selected = Raise KeyError.
Proof.
  intros H. unfold basic_mode.
  destruct (py_eq selected (VStr "All Vendors")); [left; reflexivity|].
  rewrite getcol_cells, H. right. reflexivity.
Qed.

(** ** Basic mode and the script *)

(** X10. The card of basic mode is a card of the selection: whenever
    basic mode renders a vendor, the record it shows carries under
    vendor name a value equal to the selected one (for a selected text,
    that very text). *)
Theorem basic_mode_shows_selection (df : DataFrame) (selected : Value)
    (info : gmap string Value) (boxes : list Value) :
  basic_mode df selected = Ok (VendorOverview info boxes) ->
  exists v,
    info !! "vendor_name" = Some v /\ py_eq v selected = true /\
    forall chosen, selected = VStr chosen -> v = VStr chosen.
Proof.
  intros H.
  destruct (has_column df VENDOR_NAME_COL) eqn:Hcol.
  2: { destruct (basic_mode_no_column df selected Hcol) as [E|E];
       rewrite E in H; discriminate. }
  destruct (py_eq selected (VStr "All Vendors")) eqn:Hall.
  { unfold basic_mode in H. rewrite Hall in H. discriminate. }
  rewrite (basic_mode_filter df selected Hcol Hall) in H.
  destruct (List.filter (vendor_criterion df selected) (rows df))
    as [|first rest] eqn:Hf; [discriminate|].
  apply filter_head in Hf. destruct Hf as [_ Hfirst].
  unfold vendor_criterion in Hfirst.
  destruct (render_card (row_series df first)) as [[i b]| |] eqn:Hr;
    cbn in H; [|discriminate..].
  injection H as <- <-.
  apply render_card_extract, extract_vendor_info_vendor_name in Hr.
  rewrite safe_get_row_series, (py_eq_notna _ _ Hfirst) in Hr.
  exists (cell df first VENDOR_NAME_COL).
  split; [exact Hr|]. split; [exact Hfirst|].
  intros chosen ->. apply py_eq_text_only. exact Hfirst.
Qed.

Lemma basic_mode_shows_selection_witness :
  exists v,
    name_city_record "Pizza Palace" "Mumbai" !! "vendor_name" = Some v /\
    py_eq v (VStr "Pizza Palace") = true /\
    forall chosen, VStr "Pizza Palace" = VStr chosen -> v = VStr chosen.
Proof.
  apply (basic_mode_shows_selection two_palaces (VStr "Pizza Palace")
           (name_city_record "Pizza Palace" "Mumbai")
           (name_city_boxes "Mumbai")).
  vm_compute. reflexivity.
Defined.

Lemma insert_sorted_In {A : Type} (lt : A -> A -> Outcome bool) x l r :
  insert_sorted lt x l = Ok r -> forall y, In y r <-> y = x \/ In y l.
Proof.
  revert r. induction l as [|z l IH]; intros r; cbn [insert_sorted].
  - intros H. injection H as <-. intros y. cbn. intuition.
  - destruct (lt z x) as [[]| |]; cbn; [|  |discriminate..].
    + destruct (insert_sorted lt x l) as [r'| |]; cbn; [|discriminate..].
      intros H. injection H as <-. intros y. cbn. rewrite (IH r' eq_refl y).
      intuition.
    + intros H. injection H as <-. intros y. cbn. intuition.
Qed.

Lemma sorted_In {A : Type} (lt : A -> A -> Outcome bool) l r :
  sorted lt l = Ok r -> forall y, In y r <-> In y l.
Proof.
  revert r. induction l as [|x l IH]; intros r; cbn [sorted].
  - intros H. injection H as <-. reflexivity.
  - destruct (sorted lt l) as [r'| |]; cbn; [|discriminate..].
    intros H y. rewrite (insert_sorted_In _ _ _ _ H y), (IH r' eq_refl y).
    cbn. intuition.
Qed.

Lemma unique_from_In {A : Type} (eqb : A -> A -> bool) seen s y :
  In y (unique_from eqb seen s) -> In y s.
Proof.
  revert seen. induction s as [|x s IH]; intros seen; cbn [unique_from];
    [tauto|].
  destruct (existsb (eqb x) seen).
  - intros H. right. eapply IH, H.
  - intros [->|H]; [left; reflexivity | right; eapply IH, H].
Qed.

Lemma selectbox_In {A : Type} (first : A) others pick :
  selectbox first others pick = first \/
  In (selectbox first others pick) others.
Proof.
  unfold selectbox.
  destruct (nth_in_or_default pick (first :: others) first) as [H|H].
  - destruct H as [H|H]; [left; symmetry; exact H | right; exact H].
  - left. exact H.
Qed.

(** X11. The warning of line 285 is dead in the running script: in
    basic mode the selection comes from the Vendor Name column itself,
    so some row always matches, and a run never ends in the no-data
    warning. *)
Theorem dashboard_basic_no_warning (df : DataFrame) (ui : Controls) :
  show_advanced ui = false ->
  dashboard df ui <> Ok NoDataWarning.
Proof.
  intros Hbasic. unfold dashboard.
  rewrite (getcol_cells df VENDOR_NAME_COL).
  destruct (has_column df VENDOR_NAME_COL) eqn:Hcol; [|discriminate].
  rewrite bind_Ok.
  destruct (sorted py_lt _) as [vendor_list| |] eqn:Hs;
    [rewrite bind_Ok | discriminate..].
  cbv zeta. rewrite Hbasic.
  set (selected := selectbox (VStr "All Vendors") vendor_list (vendor_pick ui)).
  destruct (py_eq selected (VStr "All Vendors")) eqn:Hall.
  { unfold basic_mode. rewrite Hall. discriminate. }
  rewrite (basic_mode_filter df selected Hcol Hall).
  destruct (List.filter (vendor_criterion df selected) (rows df))
    as [|first rest] eqn:Hf.
  2: { destruct (render_card (row_series df first)); discriminate. }
  exfalso.
  destruct (selectbox_In (VStr "All Vendors") vendor_list (vendor_pick ui))
    as [Hd|Hin]; [fold selected in Hd | fold selected in Hin].
  { rewrite Hd in Hall. discriminate. }
  apply (sorted_In _ _ _ Hs) in Hin.
  apply unique_from_In in Hin. apply filter_In in Hin.
  destruct Hin as [Hin Hna].
  apply in_map_iff in Hin. destruct Hin as (cells & Hcell & Hrow).
  assert (Hkeep : In cells (List.filter (vendor_criterion df selected) (rows df))).
  { apply filter_In. split; [exact Hrow|].
    unfold vendor_criterion. rewrite Hcell. apply py_eq_refl. exact Hna. }
  rewrite Hf in Hkeep. destruct Hkeep.
Qed.

Lemma dashboard_basic_no_warning_witness :
  dashboard two_palaces (mkControls 1 false "" 0) <> Ok NoDataWarning.
Proof.
  apply (dashboard_basic_no_warning two_palaces (mkControls 1 false "" 0)).
  reflexivity.
Defined.

(** *** Sorting the vendor names *)

Lemma py_lt_kinds a b :
  is_text a <> is_text b -> py_lt a b = Raise TypeError.
Proof.
  destruct a, b; cbn; intros H; (reflexivity || (exfalso; apply H; reflexivity)).
Qed.

Lemma py_lt_same_kind a b :
  is_text a = is_text b -> exists r, py_lt a b = Ok r.
Proof.
  destruct a as [s|z|c|], b as [t|y|d|]; cbn; intros H;
    try discriminate; eauto.
Qed.


Lemma insert_sorted_same_kind k x l :
  is_text x = k ->
  (forall y, In y l -> is_text y = k) ->
  exists r, insert_sorted py_lt x l = Ok r.
Proof.
  intros Hx. induction l as [|z l IH]; intros Hl; cbn [insert_sorted];
    [eauto|].
  destruct (py_lt_same_kind z x) as [b Hb].
  { rewrite Hx. apply Hl. left. reflexivity. }
  rewrite Hb, bind_Ok. destruct b; [|eauto].
  destruct IH as [r Hr]; [intros y Hy; apply Hl; right; exact Hy|].
  rewrite Hr. eauto.
Qed.

Lemma sorted_same_kind k l :
  (forall y, In y l -> is_text y = k) ->
  exists r, sorted py_lt l = Ok r.
Proof.
  induction l as [|x l IH]; intros Hl; cbn [sorted]; [eauto|].
  destruct IH as [r Hr]; [intros y Hy; apply Hl; right; exact Hy|].
  rewrite Hr, bind_Ok.
  apply (insert_sorted_same_kind k).
  - apply Hl. left. reflexivity.
  - intros y Hy. apply (sorted_In _ _ _ Hr) in Hy. apply Hl. right. exact Hy.
Qed.

Lemma forallb_false {A : Type} (f : A -> bool) (l : list A) :
  forallb f l = false -> exists x, In x l /\ f x = false.
Proof.
  induction l as [|x l IH]; cbn [forallb]; [discriminate|].
  destruct (f x) eqn:Hx; cbn [andb].
  - intros H. destruct (IH H) as (y & Hy & Hfy). exists y.
    split; [right; exact Hy | exact Hfy].
  - intros _. exists x. split; [left; reflexivity | exact Hx].
Qed.

Lemma insert_sorted_other_kind x l r :
  sorted py_lt l = Ok r ->
  l <> [] ->
  (forall y, In y l -> is_text y <> is_text x) ->
  insert_sorted py_lt x r = Raise TypeError.
Proof.
  intros Hr Hne Hl.
  destruct r as [|z r].
  - destruct l as [|y l]; [contradiction|].
    assert (Hy : In y []) by (apply (sorted_In _ _ _ Hr); left; reflexivity).
    destruct Hy.
  - cbn [insert_sorted]. rewrite py_lt_kinds; [reflexivity|].
    apply Hl. apply (sorted_In _ _ _ Hr). left. reflexivity.
Qed.

Lemma sorted_mixed l a b :
  In a l -> In b l -> is_text a = true -> is_text b = false ->
  sorted py_lt l = Raise TypeError.
Proof.
  revert a b.
  induction l as [|x l IH]; intros a b Ha Hb Hta Htb; [destruct Ha|].
  cbn [sorted].
  destruct (forallb is_text l) eqn:Hall.
  { (* the tail is all text, so the head is the number *)
    rewrite forallb_forall in Hall.
    destruct Hb as [->|Hb]; [|rewrite (Hall _ Hb) in Htb; discriminate].
    destruct Ha as [->|Ha]; [congruence|].
    destruct (sorted_same_kind true l Hall) as [r Hr].
    rewrite Hr, bind_Ok.
    apply (insert_sorted_other_kind b l r Hr).
    - intros ->. destruct Ha.
    - intros y Hy. rewrite (Hall _ Hy), Htb. discriminate. }
  destruct (forallb (fun v => negb (is_text v)) l) eqn:Hnone.
  { (* the tail has no text, so the head is the text *)
    rewrite forallb_forall in Hnone.
    assert (Hl : forall y, In y l -> is_text y = false).
    { intros y Hy. apply negb_true_iff. apply Hnone. exact Hy. }
    destruct Ha as [->|Ha]; [|rewrite (Hl _ Ha) in Hta; discriminate].
    destruct Hb as [->|Hb]; [congruence|].
    destruct (sorted_same_kind false l Hl) as [r Hr].
    rewrite Hr, bind_Ok.
    apply (insert_sorted_other_kind a l r Hr).
    - intros ->. destruct Hb.
    - intros y Hy. rewrite (Hl _ Hy), Hta. discriminate. }
  apply forallb_false in Hall. destruct Hall as (b' & Hb' & Htb').
  apply forallb_false in Hnone. destruct Hnone as (a' & Ha' & Hta').
  apply negb_false_iff in Hta'.
  rewrite (IH a' b' Ha' Hb' Hta' Htb'). reflexivity.
Qed.

Lemma py_eq_kind a b : py_eq a b = true -> is_text a = is_text b.
Proof. destruct a, b; cbn; intros H; (discriminate || reflexivity). Qed.

Lemma unique_from_cover seen s x :
  (forall y, In y s -> py_eq y y = true) ->
  In x s ->
  existsb (py_eq x) seen = true \/
  exists y, In y (unique_from py_eq seen s) /\ py_eq x y = true.
Proof.
  revert seen. induction s as [|z s IH]; intros seen Hrefl Hx; [destruct Hx|].
  cbn [unique_from].
  assert (Hs : forall y, In y s -> py_eq y y = true)
    by (intros y Hy; apply Hrefl; right; exact Hy).
  destruct Hx as [->|Hx].
  - destruct (existsb (py_eq x) seen) eqn:Hseen; [left; reflexivity|].
    right. exists x. split; [left; reflexivity|].
    apply Hrefl. left. reflexivity.
  - destruct (existsb (py_eq z) seen) eqn:Hseen.
    + apply (IH seen Hs Hx).
    + destruct (IH (z :: seen) Hs Hx) as [H|(y & Hy & Hxy)].
      * cbn [existsb] in H. apply orb_true_iff in H.
        destruct H as [H|H]; [|left; exact H].
        right. exists z. split; [left; reflexivity | exact H].
      * right. exists y. split; [right; exact Hy | exact Hxy].
Qed.

Lemma unique_dropna_kind names v :
  In v names -> notna v = true ->
  exists y, In y (unique py_eq (dropna names)) /\ is_text y = is_text v.
Proof.
  intros Hv Hna.
  destruct (unique_from_cover [] (dropna names) v) as [H|(y & Hy & Hxy)].
  - intros y Hy. apply filter_In in Hy. apply py_eq_refl. apply Hy.
  - apply filter_In. split; [exact Hv | exact Hna].
  - discriminate H.
  - exists y. split; [exact Hy|]. symmetry. apply py_eq_kind. exact Hxy.
Qed.

(** X12. A Vendor Name column that holds a text in one row and a number
    or boolean in another stops the script at line 188: [sorted] cannot
    order the two and raises [TypeError], in either mode and before any
    widget is drawn. *)
Theorem dashboard_mixed_names_raise (df : DataFrame) (ui : Controls)
    (text_row number_row : list Value) :
  has_column df "Vendor Name" = true ->
  In text_row (rows df) ->
  In number_row (rows df) ->
  is_text (cell df text_row "Vendor Name") = true ->
  is_text (cell df number_row "Vendor Name") = false ->
  notna (cell df number_row "Vendor Name") = true ->
  dashboard df ui = Raise TypeError.
Proof.
  change "Vendor Name" with VENDOR_NAME_COL.
  intros Hcol Ht Hn Htext Hnum Hna. unfold dashboard.
  rewrite (getcol_cells df VENDOR_NAME_COL), Hcol, bind_Ok.
  set (names := map (fun cells => cell df cells VENDOR_NAME_COL) (rows df)).
  destruct (unique_dropna_kind names (cell df text_row VENDOR_NAME_COL))
    as (a & Ha & Hta).
  { unfold names. apply in_map_iff. eauto. }
  { destruct (cell df text_row VENDOR_NAME_COL); (reflexivity || discriminate). }
  destruct (unique_dropna_kind names (cell df number_row VENDOR_NAME_COL))
    as (b & Hb & Htb).
  { unfold names. apply in_map_iff. eauto. }
  { exact Hna. }
  rewrite (sorted_mixed _ a b Ha Hb); [reflexivity | congruence | congruence].
Qed.

Lemma dashboard_mixed_names_raise_witness :
  dashboard mixed_names (mkControls 0 false "" 0) = Raise TypeError.
Proof.
  apply (dashboard_mixed_names_raise mixed_names (mkControls 0 false "" 0)
           [VStr "Taco Hut"] [VInt 42]).
  - reflexivity.
  - left. reflexivity.
  - right. left. reflexivity.
  - reflexivity.
  - reflexivity.
  - reflexivity.
Defined.

(** *** What a run can raise *)

Lemma extract_vendor_info_cases row :
  (exists info, extract_vendor_info row = Ok info) \/
  extract_vendor_info row = Raise TypeError.
Proof.
  assert (Hdec : (text_or_missing row CUISINE_1_COL /\
                  text_or_missing row CUISINE_2_COL) \/
                 ~ (text_or_missing row CUISINE_1_COL /\
                    text_or_missing row CUISINE_2_COL)).
  { unfold text_or_missing.
    destruct (row !! CUISINE_1_COL) as [[| | |]|],
             (row !! CUISINE_2_COL) as [[| | |]|]; tauto. }
  destruct Hdec as [[H1 H2]|Hn].
  - left. destruct (extract_vendor_info_textual row H1 H2) as (info & Hi & _).
    eauto.
  - right. unfold extract_vendor_info.
    rewrite (compose_cuisine_number row Hn). reflexivity.
Qed.

Lemma render_boxes_ok row info :
  extract_vendor_info row = Ok info ->
  exists boxes, render_owner_and_vendor_boxes info = Ok boxes.
Proof.
  intros H. apply extract_vendor_info_record in H.
  destruct H as (c & _ & ->).
  unfold render_owner_and_vendor_boxes, getitem. simplify_map_eq. eauto.
Qed.


Lemma header_text_ok row info :
  extract_vendor_info row = Ok info ->
  exists label, header_text info = Ok label.
Proof.
  intros H. apply extract_vendor_info_record in H.
  destruct H as (c & _ & ->).
  unfold header_text, getitem. simplify_map_eq.
  destruct (negb _); simplify_map_eq; eauto.
Qed.

Lemma expander_cases label :
  (exists title, expander label = Ok title) \/ expander label = Raise TypeError.
Proof. destruct label; cbn; eauto. Qed.

Lemma render_expander_cases row :
  (exists card, render_expander row = Ok card /\
                extract_vendor_info row = Ok (fst (snd card))) \/
  render_expander row = Raise TypeError.
Proof.
  unfold render_expander.
  destruct (extract_vendor_info_cases row) as [[info Hi]|Hi]; rewrite Hi;
    [|right; reflexivity].
  rewrite bind_Ok.
  destruct (header_text_ok row info Hi) as [label ->]. rewrite bind_Ok.
  destruct (expander_cases label) as [[title ->]| ->]; [|right; reflexivity].
  rewrite bind_Ok.
  destruct (render_boxes_ok row info Hi) as [boxes ->]. rewrite bind_Ok.
  left. eexists. split; reflexivity.
Qed.


Lemma render_expanders_bad_row rs row :
  In row rs ->
  extract_vendor_info row = Raise TypeError ->
  render_expanders rs = Raise TypeError.
Proof.
  intros Hin He. induction rs as [|r rs IH]; [destruct Hin|].
  cbn [render_expanders].
  destruct (render_expander_cases r) as [(card & Hc & Hx)|Hc]; rewrite Hc;
    [|reflexivity].
  rewrite bind_Ok. destruct Hin as [->|Hin]; [congruence|].
  rewrite (IH Hin). reflexivity.
Qed.



Lemma advanced_filters_columns df q selector res :
  advanced_filters df q selector = Ok res -> columns res = columns df.
Proof.
  rewrite advanced_filters_criteria.
  destruct (text_criterion df q); cbn; [|discriminate..].
  intros H. injection H as <-. reflexivity.
Qed.

Lemma row_series_columns df res cells :
  columns res = columns df -> row_series res cells = row_series df cells.
Proof. unfold row_series, labels. intros ->. reflexivity. Qed.










(** X15. One row the extractor cannot take spoils the advanced view: if
    a row the filters kept has a number in a cuisine cell, the run of
    advanced mode raises [TypeError], whichever rows come before and
    after it. *)
Theorem advanced_mode_bad_row (df res : DataFrame) (q selector : string)
    (cells : list Value) :
  advanced_filters df q selector = Ok res ->
  In cells (rows res) ->
  extract_vendor_info (row_series df cells) = Raise TypeError ->
  advanced_mode df q selector = Raise TypeError.
Proof.
  intros Hf Hin He. unfold advanced_mode. rewrite Hf, bind_Ok.
  pose proof (advanced_filters_columns _ _ _ _ Hf) as Hcols.
  destruct (rows res) as [|c0 rest]; [destruct Hin|].
  rewrite (render_expanders_bad_row (map (row_series res) (c0 :: rest))
             (row_series df cells)).
  - reflexivity.
  - apply in_map_iff. exists cells.
    split; [apply row_series_columns; exact Hcols | exact Hin].
  - exact He.
Qed.

Lemma advanced_mode_bad_row_witness :
  advanced_mode number_cuisine "pizza" "All" = Raise TypeError.
Proof.
  apply (advanced_mode_bad_row number_cuisine
           (mkFrame [("Vendor Name", DObject); ("Cuisine type 1", DInt64)]
              [[VStr "Pizza Palace"; VInt 4]])
           "pizza" "All" [VStr "Pizza Palace"; VInt 4]).
  - vm_compute. reflexivity.
  - left. reflexivity.
  - vm_compute. reflexivity.
Defined.

(** ** Loader, further *)



(** X16. [strip] takes away white space and only at the two ends: a
    header is some white space, its stripped form, and some white space
    again, and the stripped form neither starts nor ends with a white
    space character; what lies between its ends is kept as it is. White
    space is what [str.isspace] says of the code points up to U+00FF, the
    no-break space and the next-line control among them. *)
Theorem py_strip_spec (s : string) :
  exists pre post,
    s = pre +:+ py_strip s +:+ post /\
    all_space pre /\ all_space post /\ stripped (py_strip s).
Proof.
  destruct (py_strip_split s) as (pre & post & Hs & Hpre & Hpost).
  exists pre, post.
  split; [exact Hs|].
  split; [exact Hpre|].
  split; [exact Hpost | apply py_strip_stripped].
Qed.








Lemma lower_append a b : lower (a +:+ b) = lower a +:+ lower b.
Proof.
  induction a as [|c a IH]; [reflexivity|].
  change (lower (String c a +:+ b)) with (String (lower_char c) (lower (a +:+ b))).
  rewrite IH. reflexivity.
Qed.

Lemma endswith_append pre suffix : endswith (pre +:+ suffix) suffix = true.
Proof.
  induction pre as [|c pre IH].
  - change ("" +:+ suffix) with suffix. destruct suffix; cbn [endswith];
      rewrite String.eqb_refl; reflexivity.
  - change (String c pre +:+ suffix) with (String c (pre +:+ suffix)).
    cbn [endswith]. rewrite IH. apply orb_true_r.
Qed.

(** X18. The parser is chosen by the end of the file name, whatever its
    letter case: a name that ends in an extension whose lower-case form
    is .csv goes to [read_csv], and [read_excel] is not consulted; the
    loader's outcome is that parser's, with the headers stripped. *)
Theorem load_csv_any_case
    (read_csv read_excel : UploadedFile -> Outcome ParsedSheet)
    (stem ext : string) (bytes : list Byte.byte) :
  lower ext = ".csv" ->
  load_vendor_data read_csv read_excel (mkUpload (stem +:+ ext) bytes) =
  (read_csv (mkUpload (stem +:+ ext) bytes) ≫= strip_columns).
Proof.
  intros Hext. unfold load_vendor_data. cbn [name].
  rewrite lower_append, Hext, endswith_append. reflexivity.
Qed.

Lemma load_csv_any_case_witness :
  load_vendor_data (fun _ => Ok padded_header) (fun _ => Raise ImportError)
    (mkUpload ("Vendor List" +:+ ".CSV") []) =
  ((fun _ => Ok padded_header) (mkUpload ("Vendor List" +:+ ".CSV") [])
   ≫= strip_columns).
Proof.
  apply (load_csv_any_case (fun _ => Ok padded_header)
           (fun _ => Raise ImportError) "Vendor List" ".CSV" []).
  reflexivity.
Defined.

(** X19. How a failing parser fails the loader. For a CSV name the
    loader raises what [read_csv] raises, an [ImportError] too. For any
    other name an [ImportError] of [read_excel] becomes the stop of the
    script, and every other exception of [read_excel] passes through
    unchanged. Nothing is said here of a sheet that parsed: what the
    stripping of its headers may raise is a matter of the headers. *)
Theorem load_failure
    (read_csv read_excel : UploadedFile -> Outcome ParsedSheet)
    (uploaded_file : UploadedFile) (e : Exn) :
  (if endswith (lower (name uploaded_file)) ".csv"
   then read_csv uploaded_file else read_excel uploaded_file) = Raise e ->
  load_vendor_data read_csv read_excel uploaded_file =
  Raise (if endswith (lower (name uploaded_file)) ".csv" then e
         else match e with ImportError => StopException | _ => e end).
Proof.
  unfold load_vendor_data.
  destruct (endswith (lower (name uploaded_file)) ".csv");
    intros ->; [reflexivity|].
  destruct e; reflexivity.
Qed.

Lemma load_failure_witness :
  load_vendor_data (fun _ => Raise ImportError) (fun _ => Raise ImportError)
    (mkUpload "vendors.xlsx" []) =
  Raise (if endswith (lower "vendors.xlsx") ".csv" then ImportError
         else StopException) /\
  load_vendor_data (fun _ => Raise ImportError) (fun _ => Raise ImportError)
    (mkUpload "vendors.csv" []) =
  Raise (if endswith (lower "vendors.csv") ".csv" then ImportError
         else StopException).
Proof.
  split.
  - apply (load_failure (fun _ => Raise ImportError)
             (fun _ => Raise ImportError) (mkUpload "vendors.xlsx" [])
             ImportError).
    reflexivity.
  - apply (load_failure (fun _ => Raise ImportError)
             (fun _ => Raise ImportError) (mkUpload "vendors.csv" [])
             ImportError).
    reflexivity.
Defined.

(** ** Loader and script together *)





Example main_finds_padded_vendor_name :
  main (fun _ => Ok nbsp_sheet) (fun _ => Raise ImportError)
    (Some (mkUpload "vendors.csv" [])) (mkControls 0 false "" 0)
  = Ok SelectVendorPrompt.
Proof. vm_compute. reflexivity. Qed.

(** ** The options of the vendor selectbox *)

Lemma ascii_compare_refl c : Ascii.compare c c = Eq.
Proof. unfold Ascii.compare. apply N.compare_refl. Qed.

Lemma ascii_compare_lt_trans a b c :
  Ascii.compare a b = Lt -> Ascii.compare b c = Lt -> Ascii.compare a c = Lt.
Proof.
  unfold Ascii.compare. rewrite !N.compare_lt_iff. apply N.lt_trans.
Qed.

Lemma string_compare_lt_trans a b c :
  String.compare a b = Lt -> String.compare b c = Lt ->
  String.compare a c = Lt.
Proof.
  revert b c. induction a as [|x a IH]; intros [|y b] [|z c]; cbn;
    try discriminate; try reflexivity.
  destruct (Ascii.compare x y) eqn:Hxy; try discriminate;
    destruct (Ascii.compare y z) eqn:Hyz; try discriminate; intros H1 H2.
  - apply Ascii.compare_eq_iff in Hxy, Hyz. subst.
    rewrite ascii_compare_refl. eapply IH; eassumption.
  - apply Ascii.compare_eq_iff in Hxy. subst. rewrite Hyz. reflexivity.
  - apply Ascii.compare_eq_iff in Hyz. subst. rewrite Hxy. reflexivity.
  - rewrite (ascii_compare_lt_trans _ _ _ Hxy Hyz). reflexivity.
Qed.

Lemma string_ltb_asym a b : String.ltb a b = true -> String.ltb b a = false.
Proof.
  unfold String.ltb. rewrite (String.compare_antisym b a).
  destruct (String.compare a b); (discriminate || reflexivity).
Qed.

Lemma string_ltb_between a b c :
  String.ltb c a = true -> String.ltb c b = true \/ String.ltb b a = true.
Proof.
  unfold String.ltb. intros Hca.
  destruct (String.compare b a) eqn:Hba.
  - apply String.compare_eq_iff in Hba. subst b. left. exact Hca.
  - right. reflexivity.
  - left. rewrite String.compare_antisym in Hba.
    destruct (String.compare a b) eqn:Hab; try discriminate.
    destruct (String.compare c a) eqn:Hc; try discriminate.
    rewrite (string_compare_lt_trans _ _ _ Hc Hab). reflexivity.
Qed.

Lemma is_text_VStr v : is_text v = true -> exists s, v = VStr s.
Proof. destruct v; try discriminate. eauto. Qed.

Lemma insert_sorted_text x l :
  is_text x = true ->
  (forall y, In y l -> is_text y = true) ->
  StronglySorted not_after l ->
  exists r, insert_sorted py_lt x l = Ok r /\ StronglySorted not_after r.
Proof.
  intros Hx. destruct (is_text_VStr x Hx) as [s ->].
  induction l as [|y l IH]; intros Hl Hs; cbn [insert_sorted].
  - exists [VStr s]. split; [reflexivity|]. repeat constructor.
  - destruct (is_text_VStr y (Hl y (or_introl eq_refl))) as [t ->].
    apply StronglySorted_inv in Hs. destruct Hs as [Hs Hy].
    cbn [py_lt]. rewrite bind_Ok.
    destruct (String.ltb t s) eqn:Hts.
    + destruct IH as (r & Hr & Hsr);
        [intros z Hz; apply Hl; right; exact Hz | exact Hs |].
      rewrite Hr, bind_Ok. exists (VStr t :: r). split; [reflexivity|].
      constructor; [exact Hsr|].
      apply List.Forall_forall. intros z Hz.
      apply (insert_sorted_In _ _ _ _ Hr) in Hz. destruct Hz as [->|Hz].
      * unfold not_after. cbn. rewrite (string_ltb_asym _ _ Hts). reflexivity.
      * revert z Hz. apply List.Forall_forall. exact Hy.
    + exists (VStr s :: VStr t :: l). split; [reflexivity|].
      constructor; [constructor; assumption|].
      constructor; [unfold not_after; cbn; rewrite Hts; reflexivity|].
      apply List.Forall_forall. intros z Hz.
      destruct (is_text_VStr z (Hl z (or_intror Hz))) as [u ->].
      rewrite List.Forall_forall in Hy. specialize (Hy _ Hz).
      unfold not_after in *. cbn in *.
      destruct (String.ltb u s) eqn:Hus; [|reflexivity].
      destruct (string_ltb_between s t u Hus) as [H|H]; congruence.
Qed.

Lemma sorted_text l :
  (forall y, In y l -> is_text y = true) ->
  exists r, sorted py_lt l = Ok r /\ StronglySorted not_after r.
Proof.
  induction l as [|x l IH]; intros Hl; cbn [sorted].
  - exists []. split; [reflexivity | constructor].
  - destruct IH as (r & Hr & Hsr); [intros y Hy; apply Hl; right; exact Hy|].
    rewrite Hr, bind_Ok. apply insert_sorted_text.
    + apply Hl. left. reflexivity.
    + intros y Hy. apply (sorted_In _ _ _ Hr) in Hy. apply Hl. right. exact Hy.
    + exact Hsr.
Qed.

Lemma insert_sorted_NoDup {A : Type} (lt : A -> A -> Outcome bool) x l r :
  insert_sorted lt x l = Ok r -> ~ In x l -> List.NoDup l -> List.NoDup r.
Proof.
  revert r. induction l as [|y l IH]; intros r; cbn [insert_sorted].
  - intros H _ _. injection H as <-. repeat constructor. intros [].
  - destruct (lt y x) as [[]| |]; cbn; try discriminate.
    + destruct (insert_sorted lt x l) as [r'| |] eqn:Hr; cbn; try discriminate.
      intros H Hx Hnd. injection H as <-.
      apply List.NoDup_cons_iff in Hnd. destruct Hnd as [Hy Hnd].
      constructor.
      * intros Hin. apply (insert_sorted_In _ _ _ _ Hr) in Hin.
        destruct Hin as [->|Hin]; [apply Hx; left; reflexivity | contradiction].
      * apply IH; [reflexivity | intros Hin; apply Hx; right; exact Hin | exact Hnd].
    + intros H Hx Hnd. injection H as <-. constructor; assumption.
Qed.

Lemma sorted_NoDup {A : Type} (lt : A -> A -> Outcome bool) l r :
  sorted lt l = Ok r -> List.NoDup l -> List.NoDup r.
Proof.
  revert r. induction l as [|x l IH]; intros r; cbn [sorted].
  - intros H _. injection H as <-. constructor.
  - destruct (sorted lt l) as [r'| |] eqn:Hr; cbn; try discriminate.
    intros H Hnd. apply List.NoDup_cons_iff in Hnd. destruct Hnd as [Hx Hnd].
    eapply insert_sorted_NoDup; [exact H | | apply IH; [reflexivity | exact Hnd]].
    intros Hin. apply Hx. apply (sorted_In _ _ _ Hr). exact Hin.
Qed.

Lemma unique_from_text_NoDup seen s :
  (forall y, In y s -> is_text y = true) ->
  List.NoDup (unique_from py_eq seen s) /\
  forall y, In y (unique_from py_eq seen s) -> ~ In y seen.
Proof.
  revert seen. induction s as [|x s IH]; intros seen Hs; cbn [unique_from].
  - split; [constructor | intros y []].
  - assert (Hs' : forall y, In y s -> is_text y = true)
      by (intros y Hy; apply Hs; right; exact Hy).
    destruct (is_text_VStr x (Hs x (or_introl eq_refl))) as [t ->].
    destruct (existsb (py_eq (VStr t)) seen) eqn:Hseen.
    + apply IH. exact Hs'.
    + assert (Hnot : ~ In (VStr t) seen).
      { intros Hin.
        assert (H : existsb (py_eq (VStr t)) seen = true).
        { apply existsb_exists. exists (VStr t).
          split; [exact Hin | apply py_eq_refl; reflexivity]. }
        congruence. }
      destruct (IH (VStr t :: seen) Hs') as [Hnd Hout].
      split.
      * constructor; [|exact Hnd].
        intros Hin. apply (Hout _ Hin). left. reflexivity.
      * intros y [<-|Hy]; [exact Hnot|].
        intros Hin. apply (Hout _ Hy). right. exact Hin.
Qed.

(** X21. When the names in the Vendor Name column are texts, line 188
    gives the selectbox each distinct name that is not missing, once,
    in ascending order: the list is built without error, has no
    duplicates, holds exactly the non-missing names of the column, and
    no entry is less than an entry before it. *)
Theorem vendor_options_text (names : list Value) :
  (forall v, In v names -> notna v = true -> is_text v = true) ->
  exists vendor_list,
    sorted py_lt (unique py_eq (dropna names)) = Ok vendor_list /\
    List.NoDup vendor_list /\
    (forall v, In v vendor_list <-> In v names /\ notna v = true) /\
    StronglySorted not_after vendor_list.
Proof.
  intros Htext.
  assert (Hd : forall y, In y (dropna names) -> is_text y = true).
  { intros y Hy. apply filter_In in Hy. destruct Hy. auto. }
  assert (Hu : forall y, In y (unique py_eq (dropna names)) -> is_text y = true).
  { intros y Hy. apply Hd. eapply unique_from_In, Hy. }
  destruct (sorted_text _ Hu) as (vendor_list & Hs & Hsorted).
  exists vendor_list. split; [exact Hs|].
  split.
  { eapply sorted_NoDup; [exact Hs|].
    apply (unique_from_text_NoDup [] (dropna names) Hd). }
  split; [|exact Hsorted].
  intros v. rewrite (sorted_In _ _ _ Hs v). split.
  - intros Hv. apply unique_from_In in Hv. apply filter_In in Hv. exact Hv.
  - intros [Hv Hna].
    destruct (unique_from_cover [] (dropna names) v) as [H|(y & Hy & Hvy)].
    + intros y Hy. apply py_eq_refl. apply filter_In in Hy. apply Hy.
    + apply filter_In. split; assumption.
    + discriminate H.
    + destruct (is_text_VStr y (Hu y Hy)) as [t ->].
      apply py_eq_text_only in Hvy. subst v. exact Hy.
Qed.

Lemma vendor_options_text_witness :
  exists vendor_list,
    sorted py_lt
      (unique py_eq
         (dropna [VStr "Taco Hut"; VNaN; VStr "Pizza Palace"; VStr "Taco Hut"]))
    = Ok vendor_list /\
    List.NoDup vendor_list /\
    (forall v,
       In v vendor_list <->
       In v [VStr "Taco Hut"; VNaN; VStr "Pizza Palace"; VStr "Taco Hut"] /\
       notna v = true) /\
    StronglySorted not_after vendor_list.
Proof.
  apply (vendor_options_text
           [VStr "Taco Hut"; VNaN; VStr "Pizza Palace"; VStr "Taco Hut"]).
  intros v [<-|[<-|[<-|[<-|[]]]]] H; (reflexivity || discriminate H).
Defined.

(** ** The capacity selectbox and the empty search box *)

Lemma insert_sorted_bool {A : Type} (lt : A -> A -> bool) x l :
  exists r, insert_sorted (fun a b => Ok (lt a b)) x l = Ok r.
Proof.
  induction l as [|y l IH]; cbn [insert_sorted]; [eauto|].
  rewrite bind_Ok. destruct (lt y x); [|eauto].
  destruct IH as [r ->]. eauto.
Qed.

Lemma sorted_bool {A : Type} (lt : A -> A -> bool) l :
  exists r, sorted (fun a b => Ok (lt a b)) l = Ok r.
Proof.
  induction l as [|x l IH]; cbn [sorted]; [eauto|].
  destruct IH as [r ->]. rewrite bind_Ok. apply insert_sorted_bool.
Qed.

Lemma advanced_mode_some_row df selector cells :
  In cells (rows df) ->
  capacity_criterion df selector cells = true ->
  advanced_mode df "" selector <> Ok NoMatchesInfo.
Proof.
  intros Hin Hcap. unfold advanced_mode.
  rewrite advanced_filters_criteria. unfold text_criterion.
  cbn [String.eqb]. rewrite !bind_Ok. cbn [keep_rows rows].
  destruct (List.filter _ (rows df)) as [|c0 rest] eqn:Hf.
  - exfalso.
    assert (H : In cells []).
    { rewrite <- Hf. apply filter_In. split; [exact Hin|]. exact Hcap. }
    destruct H.
  - destruct (render_expanders _); discriminate.
Qed.

(** X22. With the search box empty the advanced view always has a row
    to show, unless the table has none: whichever entry of the capacity
    selectbox is picked, it is All or the string form of some row's
    capacity, so the filters keep a row and the run does not end in the
    no-matches message. *)
Theorem dashboard_empty_query_matches (df : DataFrame) (ui : Controls) :
  show_advanced ui = true ->
  typed_query ui = "" ->
  rows df <> [] ->
  dashboard df ui <> Ok NoMatchesInfo.
Proof.
  intros Hadv Hq Hrows. unfold dashboard.
  rewrite (getcol_cells df VENDOR_NAME_COL).
  destruct (has_column df VENDOR_NAME_COL); [|discriminate].
  rewrite bind_Ok.
  destruct (sorted py_lt _) as [vendor_list| |];
    [rewrite bind_Ok | discriminate..].
  cbv zeta. rewrite Hadv, Hq.
  destruct (rows df) as [|first rest] eqn:Hr; [contradiction|].
  assert (Hall : forall cells, capacity_criterion df "All" cells = true)
    by reflexivity.
  rewrite (getcol_cells df SERVING_CAP_COL).
  destruct (has_column df SERVING_CAP_COL) eqn:Hcap.
  2: { rewrite bind_Ok. apply (advanced_mode_some_row df "All" first).
       - rewrite Hr. left. reflexivity.
       - apply Hall. }
  rewrite bind_Ok.
  destruct (sorted_bool String.ltb
              (unique String.eqb
                 (astype_str
                    (dropna (map (fun cells => cell df cells SERVING_CAP_COL)
                               (rows df))))))
    as [caps Hs].
  rewrite Hs, !bind_Ok.
  destruct (selectbox_In "All" caps (capacity_pick ui)) as [->|Hin].
  { apply (advanced_mode_some_row df "All" first).
    - rewrite Hr. left. reflexivity.
    - apply Hall. }
  apply (sorted_In _ _ _ Hs) in Hin. apply unique_from_In in Hin.
  unfold astype_str, dropna in Hin. apply in_map_iff in Hin.
  destruct Hin as (v & Hv & Hin). apply filter_In in Hin.
  destruct Hin as [Hin _]. apply in_map_iff in Hin.
  destruct Hin as (cells & Hcell & Hrow).
  apply (advanced_mode_some_row df _ cells).
  - exact Hrow.
  - unfold capacity_criterion. rewrite Hcap, Hcell, Hv, String.eqb_refl.
    destruct (negb _); reflexivity.
Qed.

Lemma dashboard_empty_query_matches_witness :
  dashboard two_capacities (mkControls 0 true "" 2) <> Ok NoMatchesInfo.
Proof.
  apply (dashboard_empty_query_matches two_capacities
           (mkControls 0 true "" 2)).
  - reflexivity.
  - reflexivity.
  - discriminate.
Defined.

(** ** Empty texts *)

(** X23. An empty text is a present value: [pd.notna] is true of it, so
    an Area cell holding the empty text opens the location with an empty
    part. The location is then the comma and space followed by the other
    parts, and the empty text, not the dash, when there are none. *)
Theorem location_keeps_empty_text (row : gmap string Value) :
  row !! "Area" = Some (VStr "") ->
  compose_location row =
  match omap (present_text row) ["Area 1"; "City"; "Other City 1"; "State"]
  with
  | [] => ""
  | part :: rest => ", " +:+ str_join ", " (part :: rest)
  end.
Proof.
  intros Harea. unfold compose_location. rewrite location_loop_omap.
  cbn [app].
  unfold location_columns, AREA_COL, AREA_1_COL, CITY_COL, OTHER_CITY_COL,
    STATE_COL.
  replace (omap (present_text row)
             ["Area"; "Area 1"; "City"; "Other City 1"; "State"])
    with ("" :: omap (present_text row)
                  ["Area 1"; "City"; "Other City 1"; "State"]).
  - destruct (omap (present_text row) _); reflexivity.
  - change (omap (present_text row)
              ["Area"; "Area 1"; "City"; "Other City 1"; "State"])
      with (match present_text row "Area" with
            | Some t => t :: omap (present_text row)
                               ["Area 1"; "City"; "Other City 1"; "State"]
            | None => omap (present_text row)
                        ["Area 1"; "City"; "Other City 1"; "State"]
            end).
    unfold present_text at 2. rewrite Harea. reflexivity.
Qed.

Lemma location_keeps_empty_text_witness :
  compose_location (<["Area" := VStr ""]> (<["City" := VStr "Pune"]> ∅)) =
  match omap (present_text
                (<["Area" := VStr ""]> (<["City" := VStr "Pune"]> ∅)))
          ["Area 1"; "City"; "Other City 1"; "State"]
  with
  | [] => ""
  | part :: rest => ", " +:+ str_join ", " (part :: rest)
  end.
Proof.
  apply (location_keeps_empty_text
           (<["Area" := VStr ""]> (<["City" := VStr "Pune"]> ∅))).
  reflexivity.
Defined.

Example location_empty_area :
  compose_location (<["Area" := VStr ""]> (<["City" := VStr "Pune"]> ∅))
  = ", Pune".
Proof. vm_compute. reflexivity. Qed.
